(** * The Upstox instrument cache and the Upstox PnL glue of algo-angel-code

    A shallow embedding of [src/utils/upstoxInstrument.util.js] and of
    [getTodaysPnL] from [src/services/upstox.service.js], followed by the
    order function of that file and the functions of
    [src/services/angelone.service.js].

    - JavaScript values are the values [JSON.parse] can produce, plus
      [undefined]; numbers are IEEE binary64 values ([spec_float]), objects
      are finite maps from property names to values.
    - A function of the source is a function of the module-level variable
      [instrumentCache], the lines it prints on the console and its
      completion (a returned value or a thrown error): the monad [M].
    - What the JavaScript runtime provides and the sources only call
      ([JSON.parse], the string/number conversions, [parseFloat], the case
      mapping of text outside ASCII) is a record of [Builtins], a variable
      of the development.
    - Strings are sequences of 8-bit characters, those below 128 being the
      ASCII characters. [toUpperCase] maps the ASCII letters itself and takes
      the upper-case form of everything else, the runs of characters from
      128 up, from the runtime. The wall clock (the time stamps of the log
      lines) is left out. *)

From Stdlib Require Import ZArith String Ascii List Floats.SpecFloat Lia.
From stdpp Require Import base gmap strings list.

#[local] Set Warnings "-register-all".
#[local] Open Scope string_scope.

(** ** JavaScript values *)

Definition number := spec_float.

Inductive value :=
  | VUndefined
  | VNull
  | VBool (b : bool)
  | VNum (n : number)
  | VStr (s : string)
  | VArr (elements : list value)
  | VObj (properties : gmap string value).

(** The error objects the sources can see: the two built-in classes the
    runtime throws here, and the errors of axios, of the response stream and
    of zlib. An axios error carries [response.data] when the server
    answered. *)
Inductive error :=
  | SyntaxError (message : string)
  | TypeError (message : string)
  | AxiosError (message : string) (response : option value)
  | StreamError (message : string)
  | ZlibError (message : string).

Definition message (e : error) : string :=
  match e with
  | SyntaxError m | TypeError m | AxiosError m _ | StreamError m | ZlibError m => m
  end.

Definition instanceof_SyntaxError (e : error) : bool :=
  match e with SyntaxError _ => true | _ => false end.

(** A statement or expression completes normally or throws. *)
Inductive completion (A : Type) :=
  | Return (a : A)
  | Throw (e : error).
Arguments Return {A} a.
Arguments Throw {A} e.

#[global] Instance completion_ret : MRet completion := fun A a => Return a.
#[global] Instance completion_bind : MBind completion := fun A B f c =>
  match c with Return a => f a | Throw e => Throw e end.

(** ** Numbers *)

Definition number_of_Z (z : Z) : number := binary_normalize 53 1024 z 0 false.
Definition NaN : number := S754_nan.
Definition zero : number := S754_zero false.
Definition one : number := Eval vm_compute in number_of_Z 1.
Definition number_add (x y : number) : number := SFadd 53 1024 x y.
Definition is_NaN (x : number) : bool :=
  match x with S754_nan => true | _ => false end.
Definition is_zero (x : number) : bool :=
  match x with S754_zero _ => true | _ => false end.

(** ** Strings *)

Definition is_ascii (c : ascii) : bool := (N_of_ascii c <? 128)%N.

(** The upper-case form of an ASCII character: [a] to [z] go to [A] to [Z],
    the other ASCII characters stay. *)
Definition upper_char (c : ascii) : ascii :=
  let n := N_of_ascii c in
  if ((97 <=? n) && (n <=? 122))%N then ascii_of_N (n - 32) else c.

Definition nl : string := String (ascii_of_N 10) EmptyString.

(** ** Operators *)

(** [ToBoolean]: the falsy values are [undefined], [null], [false], [0],
    [-0], [NaN] and the empty string. *)
Definition ToBoolean (v : value) : bool :=
  match v with
  | VUndefined | VNull => false
  | VBool b => b
  | VNum n => negb (is_zero n || is_NaN n)
  | VStr s => negb (String.eqb s "")
  | VArr _ | VObj _ => true
  end.

(** [v.key] for the data properties the sources read. None of them is
    defined on a prototype, so on a primitive, and on an array unless the
    key is [length], the result is [undefined]; reading a property of
    [undefined] or [null] throws. *)
Definition Get (v : value) (key : string) : completion value :=
  match v with
  | VUndefined => Throw (TypeError ("Cannot read properties of undefined (reading '" ++ key ++ "')"))
  | VNull => Throw (TypeError ("Cannot read properties of null (reading '" ++ key ++ "')"))
  | VObj properties => Return (default VUndefined (properties !! key))
  | VArr elements =>
      if String.eqb key "length" then Return (VNum (number_of_Z (Z.of_nat (length elements))))
      else Return VUndefined
  | VStr s =>
      if String.eqb key "length" then Return (VNum (number_of_Z (Z.of_nat (String.length s))))
      else Return VUndefined
  | VBool _ | VNum _ => Return VUndefined
  end.

(** [v?.key]: [undefined] when [v] is [undefined] or [null]. *)
Definition OptionalGet (v : value) (key : string) : completion value :=
  match v with
  | VUndefined | VNull => Return VUndefined
  | _ => Get v key
  end.

(** [v === s] for a string [s], and [v === n] for a number [n]. *)
Definition strict_equals_string (v : value) (s : string) : bool :=
  match v with VStr t => String.eqb t s | _ => false end.

Definition strict_equals_number (v : value) (n : number) : bool :=
  match v with VNum m => SFeqb m n | _ => false end.

(** [a || b] *)
Definition logical_or (a b : value) : value := if ToBoolean a then a else b.

(** ** What the runtime provides *)

Inductive hint := hint_number | hint_string.

Record Builtins := {
  (** [JSON.parse]: the parsed value, or a [SyntaxError]. *)
  JSON_parse : string -> completion value;
  (** [ToNumber] on a string. *)
  StringToNumber : string -> number;
  (** [ToString] on a number. *)
  NumberToString : number -> string;
  (** [ToPrimitive] on an array or an object built by [JSON.parse]: the
      string its [toString] gives, or a [TypeError] when the object shadows
      [toString] and [valueOf] with data. *)
  OrdinaryToPrimitive : hint -> value -> completion string;
  (** [parseFloat] on a string. *)
  parseFloat_string : string -> number;
  (** [String.prototype.toUpperCase] on a text without ASCII characters. *)
  toUpperCase_non_ascii : string -> string
}.

Section Runtime.

Variable rt : Builtins.

(** [String.prototype.toUpperCase]. The method maps its string piece by
    piece and no piece depends on its neighbours, so the upper-case form is
    put together from the ASCII characters, each mapped by [upper_char], and
    the runs of characters from 128 up between them, each mapped by the
    runtime. [toUpperCase_from] carries the run read so far. *)
Definition upper_run (run : string) : string :=
  if String.eqb run "" then "" else toUpperCase_non_ascii rt run.

Fixpoint toUpperCase_from (run s : string) : string :=
  match s with
  | EmptyString => upper_run run
  | String c s' =>
      if is_ascii c then
        upper_run run ++ String (upper_char c) (toUpperCase_from "" s')
      else toUpperCase_from (run ++ String c "") s'
  end.

Definition toUpperCase (s : string) : string := toUpperCase_from "" s.

(** [v?.toUpperCase()]: short-circuits to [undefined] on [undefined] and
    [null], calls the method on a string, and throws on every other value,
    where [toUpperCase] is not a function. *)
Definition optional_toUpperCase (v : value) : completion value :=
  match v with
  | VUndefined | VNull => Return VUndefined
  | VStr s => Return (VStr (toUpperCase s))
  | VBool _ | VNum _ | VArr _ | VObj _ => Throw (TypeError "toUpperCase is not a function")
  end.

Definition ToPrimitive (h : hint) (v : value) : completion value :=
  match v with
  | VArr _ | VObj _ => s ← OrdinaryToPrimitive rt h v; Return (VStr s)
  | _ => Return v
  end.

(** [ToNumber] on a primitive. *)
Definition ToNumber (p : value) : number :=
  match p with
  | VUndefined => NaN
  | VNull => zero
  | VBool b => if b then one else zero
  | VNum n => n
  | VStr s => StringToNumber rt s
  | VArr _ | VObj _ => NaN
  end.

Definition ToString (v : value) : completion string :=
  match v with
  | VUndefined => Return "undefined"
  | VNull => Return "null"
  | VBool b => Return (if b then "true" else "false")
  | VNum n => Return (NumberToString rt n)
  | VStr s => Return s
  | VArr _ | VObj _ => OrdinaryToPrimitive rt hint_string v
  end.

(** [x < y]: two strings compare by code units, everything else as
    numbers, and a comparison with [NaN] is false. *)
Definition less_than (x y : value) : completion bool :=
  px ← ToPrimitive hint_number x;
  py ← ToPrimitive hint_number y;
  match px, py with
  | VStr a, VStr b => Return (String.ltb a b)
  | _, _ => Return (SFltb (ToNumber px) (ToNumber py))
  end.

(** [parseFloat(v)] *)
Definition parseFloat (v : value) : completion number :=
  s ← ToString v; Return (parseFloat_string rt s).

(** ** Array methods *)

(** [Array.prototype.filter] with a callback that may throw. *)
Fixpoint filter_elements (callback : value -> completion bool) (l : list value)
  : completion (list value) :=
  match l with
  | [] => Return []
  | x :: l' =>
      keep ← callback x;
      rest ← filter_elements callback l';
      Return (if keep : bool then x :: rest else rest)
  end.

(** [v.filter(callback)]: only an array has the method. *)
Definition call_filter (v : value) (callback : value -> completion bool)
  : completion (list value) :=
  match v with
  | VArr elements => filter_elements callback elements
  | _ => Throw (TypeError "filter is not a function")
  end.

Fixpoint reduce_from {A : Type} (callback : A -> value -> completion A) (acc : A)
  (l : list value) : completion A :=
  match l with
  | [] => Return acc
  | x :: l' => acc' ← callback acc x; reduce_from callback acc' l'
  end.

(** [l.reduce(callback)] without an initial value. *)
Definition reduce1 (callback : value -> value -> completion value) (l : list value)
  : completion value :=
  match l with
  | [] => Throw (TypeError "Reduce of empty array with no initial value")
  | x :: l' => reduce_from callback x l'
  end.

End Runtime.

(** ** The module state, the console and the monad of the sources *)

Inductive console_arg :=
  | ArgText (s : string)
  | ArgValue (v : value)
  | ArgError (e : error).

Inductive console_stream := stdout | stderr.

(** One call of [console.log] (on [stdout]) or [console.error] (on
    [stderr]): the first argument and the remaining ones. *)
Record console_line := Line {
  stream : console_stream;
  text : string;
  args : list console_arg
}.

(** What running a piece of the module gives: the value of the module
    variable [instrumentCache] afterwards, the lines printed, and the
    completion. *)
Record outcome (A : Type) := Outcome {
  cache_after : value;
  printed : list console_line;
  result : completion A
}.
Arguments Outcome {A} _ _ _.
Arguments cache_after {A} _.
Arguments printed {A} _.
Arguments result {A} _.

Definition M (A : Type) : Type := value -> outcome A.

#[global] Instance M_ret : MRet M := fun A a cache => Outcome cache [] (Return a).
#[global] Instance M_bind : MBind M := fun A B f m cache =>
  let o := m cache in
  match result o with
  | Return a =>
      let o' := f a (cache_after o) in
      Outcome (cache_after o') (printed o ++ printed o') (result o')
  | Throw e => Outcome (cache_after o) (printed o) (Throw e)
  end.

Definition lift {A : Type} (c : completion A) : M A := fun cache => Outcome cache [] c.
Definition throw {A : Type} (e : error) : M A := fun cache => Outcome cache [] (Throw e).
Definition read_cache : M value := fun cache => Outcome cache [] (Return cache).
Definition write_cache (v : value) : M unit := fun _ => Outcome v [] (Return tt).
Definition console_log (text : string) (args : list console_arg) : M unit :=
  fun cache => Outcome cache [Line stdout text args] (Return tt).
Definition console_error (text : string) (args : list console_arg) : M unit :=
  fun cache => Outcome cache [Line stderr text args] (Return tt).

(** [try { body } catch (err) { handler }], and [promise.catch(handler)]. *)
Definition try_catch {A : Type} (body : M A) (handler : error -> M A) : M A :=
  fun cache =>
    let o := body cache in
    match result o with
    | Return a => o
    | Throw e =>
        let o' := handler e (cache_after o) in
        Outcome (cache_after o') (printed o ++ printed o') (result o')
    end.

(** ** src/utils/upstoxInstrument.util.js *)

Module UpstoxInstrument.
Section Runtime.

Variable rt : Builtins.

(** [let instrumentCache = null;] *)
Definition initial_cache : value := VNull.

(** How one download ends, as the environment decides it: [axios.get]
    rejects, the response stream or the gunzip stream emits ['error'], or
    the gunzip stream emits ['end'] after its ['data'] chunks. *)
Inductive download_event :=
  | get_rejected (err : error)
  | response_error (err : error)
  | gunzip_error (err : error)
  | gunzip_end (chunks : list string).

(** The body of the promise up to the request. *)
Definition download_start : M unit :=
  console_log "Starting instruments download for in-memory cache..." [].

(** The ['end'] handler of the gunzip stream. *)
Definition on_end (chunks : list string) : M unit :=
  try_catch
    (let data := String.concat "" chunks in
     parsed ← lift (JSON_parse rt data);
     write_cache parsed;;
     cache ← read_cache;
     len ← lift (Get cache "length");
     shown ← lift (ToString rt len);
     console_log ("In-memory cache populated with " ++ shown ++ " instruments.") [])
    (fun err => console_error "Error parsing JSON data:" [ArgError err];; throw err).

(** The handler that settles the promise: [Return] is [resolve()], [Throw]
    is [reject(err)]. *)
Definition download_settle (ev : download_event) : M unit :=
  match ev with
  | get_rejected err =>
      console_error "Download failed:" [ArgText (message err)];; throw err
  | response_error err =>
      console_error "Error during download:" [ArgError err];; throw err
  | gunzip_error err =>
      console_error "Error decompressing data:" [ArgError err];; throw err
  | gunzip_end chunks => on_end chunks
  end.

(** [await downloadAndPopulateCache()] *)
Definition downloadAndPopulateCache (ev : download_event) : M unit :=
  download_start;; download_settle ev.

(** The callback of [instrumentCache.filter] in [getUpstoxOption]. *)
Definition matches (assetSymbol : string) (strikePrice : number) (optionType : string)
  (instrument : value) : completion bool :=
  asset_symbol ← Get instrument "asset_symbol";
  upper_symbol ← optional_toUpperCase rt asset_symbol;
  if strict_equals_string upper_symbol (toUpperCase rt assetSymbol) then
    strike_price ← Get instrument "strike_price";
    if strict_equals_number strike_price strikePrice then
      instrument_type ← Get instrument "instrument_type";
      upper_type ← optional_toUpperCase rt instrument_type;
      Return (strict_equals_string upper_type (toUpperCase rt optionType))
    else Return false
  else Return false.

(** The callback of [matchingInstruments.reduce] in [getUpstoxOption]. *)
Definition earlier (earliest current : value) : completion value :=
  current_expiry ← Get current "expiry";
  earliest_expiry ← Get earliest "expiry";
  lt ← less_than rt current_expiry earliest_expiry;
  Return (if lt : bool then current else earliest).

Definition getUpstoxOption (assetSymbol : string) (strikePrice : number)
  (optionType : string) : M value :=
  instrumentCache ← read_cache;
  if negb (ToBoolean instrumentCache) then
    console_error "Instrument cache is not populated. Please run the download first." [];;
    mret VNull
  else
    matchingInstruments ←
      lift (call_filter instrumentCache (matches assetSymbol strikePrice optionType));
    if (length matchingInstruments =? 0)%nat then mret VNull
    else lift (reduce1 earlier matchingInstruments).

(** [main], with the event that ends the download it awaits when the cache
    is empty. *)
Definition main (ev : download_event) : M unit :=
  try_catch
    (instrumentCache ← read_cache;
     (if ToBoolean instrumentCache then
        console_log "Using in-memory instrument cache." []
      else
        console_log "In-memory cache is empty, populating for the first time..." [];;
        downloadAndPopulateCache ev);;
     console_log (nl ++ "--- Example Lookup ---") [];;
     niftyOption ← getUpstoxOption "NIFTY" (number_of_Z 23300) "PE";
     (if ToBoolean niftyOption then
        console_log "Found immediate NIFTY 23300 PE option:" [ArgValue niftyOption]
      else
        console_log "Could not find the specified NIFTY option." []);;
     console_log ("--------------------" ++ nl) [])
    (fun err =>
       if instanceof_SyntaxError err then
         console_error "Error: Failed to parse JSON. The downloaded data might be corrupted." []
       else
         console_error "An unexpected error occurred during initialization:"
           [ArgText (message err)]).

(** The callback of [cron.schedule] up to the moment the request is out,
    and the rest of it, run when the download settles:
    [downloadAndPopulateCache().catch(...)]. *)
Definition cron_fire : M unit :=
  console_log "Cron job: Starting daily instruments cache update." [];;
  download_start.

Definition cron_settle (ev : download_event) : M unit :=
  try_catch (download_settle ev)
    (fun err => console_error "Daily cache update failed:" [ArgError err]).

Definition cron_callback (ev : download_event) : M unit :=
  cron_fire;; cron_settle ev.

(** The statements of the module body, run at start-up: [await main()], the
    lookup that is printed, the registration of the cron callback (which
    runs nothing yet), and the two closing lines. *)
Definition startup (ev : download_event) : M unit :=
  main ev;;
  option ← getUpstoxOption "NIFTY" (number_of_Z 24000) "CE";
  console_log "" [ArgValue option];;
  console_log "Script initialized." [];;
  console_log "A background job is scheduled to update the data daily at 7:00 AM." [].

End Runtime.
End UpstoxInstrument.

(** ** The event loop around the cron job

    [cron.schedule] registers the callback once, after [await main()] has
    finished. From then on the process reacts to two kinds of events: the
    07:00 tick, and the end of a download started by an earlier tick. The
    downloads in flight are told apart by the order in which they were
    started. *)

Module Scheduler.
Import UpstoxInstrument.
Section Runtime.

Variable rt : Builtins.

Record state := State {
  instrumentCache : value;
  console : list console_line;
  running : list nat;
  started : nat
}.

Inductive event :=
  | cron_tick
  | download_done (id : nat) (ev : download_event).

Definition run (m : M unit) (s : state) (running' : list nat) (started' : nat) : state :=
  let o := m (instrumentCache s) in
  State (cache_after o) (console s ++ printed o) running' started'.

Definition is_running (id : nat) (s : state) : bool :=
  existsb (Nat.eqb id) (running s).

Definition step (s : state) (e : event) : state :=
  match e with
  | cron_tick => run cron_fire s (running s ++ [started s]) (S (started s))
  | download_done id ev =>
      if is_running id s then
        run (cron_settle rt ev) s (List.filter (fun i => negb (Nat.eqb id i)) (running s)) (started s)
      else s
  end.

Definition steps (s : state) (events : list event) : state := fold_left step events s.

(** The process once the module body has run: no download in flight. *)
Definition idle (cache : value) : state := State cache [] [] 0.

End Runtime.
End Scheduler.

(** ** src/services/upstox.service.js *)

Module UpstoxService.
Section Runtime.

Variable rt : Builtins.

(** How [await axios.get(...)] ends: with a response, of which the code
    reads [data], or with a rejection. *)
Inductive request_outcome :=
  | responded (data : value)
  | failed (err : error).

Definition await_get (req : request_outcome) : completion value :=
  match req with
  | responded data => Return data
  | failed err => Throw err
  end.

(** [v.reduce(callback, init)]: only an array has the method. *)
Definition call_reduce {A : Type} (v : value) (callback : A -> value -> completion A)
  (init : A) : completion A :=
  match v with
  | VArr elements => reduce_from callback init elements
  | _ => Throw (TypeError "reduce is not a function")
  end.

(** [(acc, pos) => acc + parseFloat(pos.pnl || 0)] *)
Definition add_pnl (acc : number) (pos : value) : completion number :=
  pnl ← Get pos "pnl";
  parsed ← parseFloat rt (logical_or pnl (VNum zero));
  Return (number_add acc parsed).

(** [err.response?.data || err.message] *)
Definition error_detail (err : error) : console_arg :=
  match err with
  | AxiosError _ (Some data) =>
      if ToBoolean data then ArgValue data else ArgText (message err)
  | _ => ArgText (message err)
  end.

(** [getTodaysPnL({ token })]: the caller passes an object, of which the
    function takes [token]. *)
Definition getTodaysPnL (token : value) (req : request_outcome) : M value :=
  try_catch
    (bearer ← lift (ToString rt token);
     response_data ← lift (await_get req);
     inner ← lift (OptionalGet response_data "data");
     let positions := logical_or inner (VArr []) in
     len ← lift (Get positions "length");
     if strict_equals_number len zero then mret (VNum zero)
     else
       totalPnL ← lift (call_reduce positions add_pnl zero);
       mret (VNum totalPnL))
    (fun err =>
       console_error "Error fetching Upstox positions:" [error_detail err];;
       mret (VNum zero)).

End Runtime.
End UpstoxService.

(** ** The vocabulary of the properties *)

(** The own property [key] of a record, [undefined] when there is none. *)
Definition field (key : string) (r : value) : value :=
  match r with
  | VObj properties => default VUndefined (properties !! key)
  | _ => VUndefined
  end.

Definition expiry_of (r : value) : value := field "expiry" r.

(** A field is absent when the record has no such property or holds
    [null] or [undefined] there. *)
Definition absent (v : value) : Prop := v = VUndefined \/ v = VNull.

Definition is_string (v : value) : Prop := exists s, v = VStr s.

Definition is_ordered_number (v : value) : Prop :=
  exists n, v = VNum n /\ is_NaN n = false.

(** The expiries of the records are of one totally ordered kind: all of
    them numbers (time stamps), or all of them strings (ISO dates). *)
Definition comparable_expiries (records : list value) : Prop :=
  Forall (fun r => is_ordered_number (expiry_of r)) records \/
  Forall (fun r => is_string (expiry_of r)) records.

(** Two characters are the same letter when they are equal or one is a
    lower-case ASCII letter and the other its upper-case form; two strings
    are equal up to the case of their ASCII letters when they are so
    character by character. *)
Definition lower_case (c : ascii) : Prop :=
  (97 <= N_of_ascii c <= 122)%N.

(** The code of the upper-case form of the character with code [n]. *)
Definition upper_code (n : N) : N :=
  if ((97 <=? n) && (n <=? 122))%N then (n - 32)%N else n.

Definition same_letter (c d : ascii) : Prop :=
  c = d \/
  (lower_case c /\ N_of_ascii d = (N_of_ascii c - 32)%N) \/
  (lower_case d /\ N_of_ascii c = (N_of_ascii d - 32)%N).

Inductive equal_up_to_case : string -> string -> Prop :=
  | equal_up_to_case_empty : equal_up_to_case "" ""
  | equal_up_to_case_char c d s t :
      same_letter c d -> equal_up_to_case s t ->
      equal_up_to_case (String c s) (String d t).

(** A text of ASCII characters only. *)
Fixpoint ascii_text (s : string) : bool :=
  match s with
  | EmptyString => true
  | String c s' => is_ascii c && ascii_text s'
  end.

(** Two strings are equal up to letter case, whatever their characters,
    when they have one upper-case form. *)
Definition same_upper_case (rt : Builtins) (s t : string) : Prop :=
  toUpperCase rt s = toUpperCase rt t.

(** Exact equality of numbers: the same number, where the two zeros are one
    number and [NaN] is none. *)
Definition exactly_equal (x y : number) : Prop :=
  is_NaN x = false /\ (x = y \/ (is_zero x = true /\ is_zero y = true)).

(** A record matches a query when its asset symbol is the queried one up to
    letter case, its strike price is exactly the queried one, and its
    instrument type is the queried option type up to letter case. *)
Definition is_match (rt : Builtins) (assetSymbol : string) (strikePrice : number)
  (optionType : string) (r : value) : Prop :=
  (exists s, field "asset_symbol" r = VStr s /\ same_upper_case rt s assetSymbol) /\
  (exists n, field "strike_price" r = VNum n /\ exactly_equal n strikePrice) /\
  (exists t, field "instrument_type" r = VStr t /\ same_upper_case rt t optionType).

(** The position of a number on the line: the sign class, then exponent and
    mantissa, both negated below zero. *)
Definition rank (x : number) : Z * Z * Z :=
  match x with
  | S754_infinity true => (-2, 0, 0)
  | S754_finite true m e => (-1, - e, - Z.pos m)
  | S754_zero _ | S754_nan => (0, 0, 0)
  | S754_finite false m e => (1, e, Z.pos m)
  | S754_infinity false => (2, 0, 0)
  end%Z.

Definition lex_lt (p q : Z * Z * Z) : Prop :=
  let '(a1, b1, c1) := p in
  let '(a2, b2, c2) := q in
  (a1 < a2 \/ (a1 = a2 /\ (b1 < b2 \/ (b1 = b2 /\ c1 < c2))))%Z.

(** The scan of [reduce] with a comparison that cannot throw. *)
Definition pick {A : Type} (lt : A -> A -> bool) (acc : A) (l : list A) : A :=
  fold_left (fun earliest current => if lt current earliest then current else earliest) l acc.

Section Vocabulary.

Variable rt : Builtins.

(** [x.expiry < y.expiry] on two records, false when the comparison
    throws. *)
Definition expires_before (x y : value) : bool :=
  match less_than rt (expiry_of x) (expiry_of y) with
  | Return b => b
  | Throw _ => false
  end.

(** The refresh fails with one of the three errors of a cycle: a network
    error (the request is rejected or the response stream breaks), a
    decompression error, or a payload that [JSON.parse] rejects. *)
Definition network_error (ev : UpstoxInstrument.download_event) : Prop :=
  match ev with
  | UpstoxInstrument.get_rejected _ | UpstoxInstrument.response_error _ => True
  | _ => False
  end.

Definition decompression_error (ev : UpstoxInstrument.download_event) : Prop :=
  match ev with UpstoxInstrument.gunzip_error _ => True | _ => False end.

Definition malformed_JSON (ev : UpstoxInstrument.download_event) : Prop :=
  match ev with
  | UpstoxInstrument.gunzip_end chunks =>
      exists e, JSON_parse rt (String.concat "" chunks) = Throw e
  | _ => False
  end.

Definition refresh_fails (ev : UpstoxInstrument.download_event) : Prop :=
  network_error ev \/ decompression_error ev \/ malformed_JSON ev.

End Vocabulary.

(** A computation that leaves [instrumentCache] as it found it, and one
    that always completes normally. *)
Definition read_only {A : Type} (m : M A) : Prop :=
  forall cache, cache_after (m cache) = cache.

Definition never_throws {A : Type} (m : M A) : Prop :=
  forall cache, exists a, result (m cache) = Return a.

(** A line on [stderr] among the printed ones. *)
Definition reported (lines : list console_line) : Prop :=
  exists l, l ∈ lines /\ stream l = stderr.

(** ** A runtime and a catalog to evaluate on *)

(** The text of a catalog of two records, as the chunks the gunzip stream
    hands over (written with single quotes for double ones). *)
Definition two_records_chunks : list string :=
  ["[{'asset_symbol':'NIFTY','strike_price':23300,'instrument_type':'PE',";
   "'expiry':'2025-01-02'},{'asset_symbol':'NIFTY','strike_price':23300,";
   "'instrument_type':'PE','expiry':'2025-01-09'}]"].

Definition two_records_text : string :=
  Eval vm_compute in String.concat "" two_records_chunks.

Definition record (asset_symbol : string) (strike_price : Z) (instrument_type expiry : string)
  : gmap string value :=
  <["asset_symbol" := VStr asset_symbol]>
  (<["strike_price" := VNum (number_of_Z strike_price)]>
  (<["instrument_type" := VStr instrument_type]>
  (<["expiry" := VStr expiry]> ∅))).

Definition two_records : list value :=
  [VObj (record "NIFTY" 23300 "PE" "2025-01-02");
   VObj (record "NIFTY" 23300 "PE" "2025-01-09")].

(** Three matching records: [A] and [C] expire on the same day, [B] two days
    later, and [C] comes last. *)
Definition tagged (key : string) (properties : gmap string value) : value :=
  VObj (<["instrument_key" := VStr key]> properties).

Definition tie_records : list value :=
  [tagged "A" (record "NIFTY" 23300 "PE" "2025-01-01");
   tagged "B" (record "Nifty" 23300 "pe" "2025-01-03");
   tagged "C" (record "nifty" 23300 "Pe" "2025-01-01")].

(** Two matching records with time stamps for expiries, the later one
    first. *)
Definition stamped (expiry : Z) : value :=
  VObj (<["expiry" := VNum (number_of_Z expiry)]> (record "NIFTY" 23300 "PE" "")).

Definition stamped_records : list value :=
  [stamped 1736447399000; stamped 1735842599000].

(** A record without an asset symbol. *)
Definition nameless_record : gmap string value :=
  <["strike_price" := VNum (number_of_Z 23300)]>
  (<["instrument_type" := VStr "PE"]> (<["expiry" := VStr "2024-12-26"]> ∅)).

(** The letter e with an acute accent and its upper-case form, each as the
    two characters of its UTF-8 encoding. *)
Definition e_acute : string := String (ascii_of_N 195) (String (ascii_of_N 169) "").
Definition E_acute : string := String (ascii_of_N 195) (String (ascii_of_N 137) "").

(** A runtime that parses [two_records_text], the empty array and the text
    [null], and rejects every other text; of the letters outside ASCII it
    knows [e_acute]. *)
Definition sample_runtime : Builtins := {|
  JSON_parse := fun text =>
    if String.eqb text two_records_text then Return (VArr two_records)
    else if String.eqb text "[]" then Return (VArr [])
    else if String.eqb text "null" then Return VNull
    else Throw (SyntaxError "Unexpected token");
  StringToNumber := fun _ => NaN;
  NumberToString := fun n =>
    if SFeqb n (number_of_Z 2) then "2" else "0";
  OrdinaryToPrimitive := fun _ _ => Return "[object Object]";
  parseFloat_string := fun _ => NaN;
  toUpperCase_non_ascii := fun run => if String.eqb run e_acute then E_acute else run
|}.

(** ** Requests

    What the service functions hand to axios, and axios itself: the
    environment answers a request with a response, of which the functions
    read [data], or with a rejection. *)

Record request := Request {
  method : string;
  url : string;
  body : value;
  headers : gmap string value
}.

Definition axios : Type := request -> UpstoxService.request_outcome.

(** [{ key = fallback }] in a parameter list: the property of the argument,
    and the fallback when the property is [undefined]. An argument that is
    [undefined] or [null] cannot be destructured. *)
Definition param (args : value) (key : string) (fallback : value) : completion value :=
  v ← Get args key;
  Return (match v with VUndefined => fallback | _ => v end).

(** ** src/services/upstox.service.js, the order *)

Module UpstoxOrder.
Section Runtime.

Variable rt : Builtins.
Variable http : axios.

Definition BASE_URL : string := "https://api.upstox.com/v2".

(** [`Bearer ${token}`] *)
Definition bearer (token : value) : completion value :=
  shown ← ToString rt token; Return (VStr ("Bearer " ++ shown)).

Definition placeIntradayOrder (args : value) : M value :=
  token ← lift (Get args "token");
  instrument_key ← lift (Get args "instrument_key");
  transaction_type ← lift (param args "transaction_type" (VStr "BUY"));
  quantity ← lift (param args "quantity" (VNum one));
  let data := VObj (list_to_map
    [("quantity", quantity);
     ("product", VStr "I");
     ("validity", VStr "DAY");
     ("order_type", VStr "MARKET");
     ("instrument_token", instrument_key);
     ("transaction_type", transaction_type);
     ("price", VNum zero);
     ("trigger_price", VNum zero);
     ("disclosed_quantity", VNum zero);
     ("is_amo", VBool false)]) in
  authorization ← lift (bearer token);
  let headers : gmap string value := list_to_map
    [("Authorization", authorization);
     ("Content-Type", VStr "application/json");
     ("Accept", VStr "application/json")] in
  try_catch
    (response_data ←
       lift (UpstoxService.await_get (http (Request "POST" (BASE_URL ++ "/order/place") data headers)));
     mret response_data)
    (fun err =>
       console_error "Error placing Upstox order:" [UpstoxService.error_detail err];;
       throw err).

End Runtime.
End UpstoxOrder.

(** ** src/services/angelone.service.js *)

Module AngelOne.
Section Runtime.

Variable rt : Builtins.
Variable http : axios.

(** [v.toString()] on an array or an object, which the caller's object
    decides. *)
Variable object_toString : value -> completion value.

Definition BASE_URL : string :=
  "https://apiconnect.angelbroking.com/rest/secure/angelbroking".

Definition bearer (token : value) : completion value :=
  shown ← ToString rt token; Return (VStr ("Bearer " ++ shown)).

(** [v.toString()] *)
Definition call_toString (v : value) : completion value :=
  match v with
  | VUndefined =>
      Throw (TypeError "Cannot read properties of undefined (reading 'toString')")
  | VNull => Throw (TypeError "Cannot read properties of null (reading 'toString')")
  | VBool b => Return (VStr (if b then "true" else "false"))
  | VNum n => Return (VStr (NumberToString rt n))
  | VStr s => Return (VStr s)
  | VArr _ | VObj _ => object_toString v
  end.

(** The object [getIntradayBalance] returns when the request fails. *)
Definition no_balance : value :=
  VObj (list_to_map
    [("net", VStr "0"); ("availableCash", VStr "0"); ("intradayBalance", VStr "0")]).

Definition getIntradayBalance (args : value) : M value :=
  apiKey ← lift (Get args "apiKey");
  token ← lift (Get args "token");
  clientLocalIP ← lift (param args "clientLocalIP" (VStr "127.0.0.1"));
  clientPublicIP ← lift (param args "clientPublicIP" (VStr "127.0.0.1"));
  macAddress ← lift (param args "macAddress" (VStr "AA:BB:CC:DD:EE:FF"));
  try_catch
    (authorization ← lift (bearer token);
     let headers : gmap string value := list_to_map
       [("Authorization", authorization);
        ("X-PrivateKey", apiKey);
        ("X-UserType", VStr "USER");
        ("X-SourceID", VStr "WEB");
        ("X-ClientLocalIP", clientLocalIP);
        ("X-ClientPublicIP", clientPublicIP);
        ("X-MACAddress", macAddress);
        ("Accept", VStr "application/json");
        ("Content-Type", VStr "application/json")] in
     res_data ←
       lift (UpstoxService.await_get
               (http (Request "GET" (BASE_URL ++ "/user/v1/getRMS") VUndefined headers)));
     inner ← lift (OptionalGet res_data "data");
     lift (OptionalGet inner "availableintradaypayin"))
    (fun err =>
       console_error "Error fetching Intraday Balance:" [UpstoxService.error_detail err];;
       mret no_balance).

(** [for (const pos of positions)]: an array gives its elements, a string
    its characters, and nothing else that reaches the loop is iterable. *)
Definition iterate (v : value) : completion (list value) :=
  match v with
  | VArr elements => Return elements
  | VStr s => Return (List.map (fun c => VStr (String c "")) (list_ascii_of_string s))
  | _ => Throw (TypeError "positions is not iterable")
  end.

(** The body of the loop of [getTodaysPnL]. *)
Definition add_position (totalPnL : number) (pos : value) : completion number :=
  mtom ← Get pos "mtom";
  if ToBoolean mtom then
    parsed ← parseFloat rt mtom; Return (number_add totalPnL parsed)
  else
    netvalue ← Get pos "netvalue";
    if ToBoolean netvalue then
      parsed ← parseFloat rt netvalue; Return (number_add totalPnL parsed)
    else Return totalPnL.

(** [err.response?.data || err] *)
Definition error_or_data (err : error) : console_arg :=
  match err with
  | AxiosError _ (Some data) => if ToBoolean data then ArgValue data else ArgError err
  | _ => ArgError err
  end.

Definition getTodaysPnL (args : value) : M value :=
  apiKey ← lift (Get args "apiKey");
  token ← lift (Get args "token");
  clientLocalIP ← lift (param args "clientLocalIP" (VStr "127.0.0.1"));
  clientPublicIP ← lift (param args "clientPublicIP" (VStr "127.0.0.1"));
  macAddress ← lift (param args "macAddress" (VStr "AA:BB:CC:DD:EE:FF"));
  try_catch
    (authorization ← lift (bearer token);
     let headers : gmap string value := list_to_map
       [("Authorization", authorization);
        ("Content-Type", VStr "application/json");
        ("Accept", VStr "application/json");
        ("X-UserType", VStr "USER");
        ("X-SourceID", VStr "WEB");
        ("X-ClientLocalIP", clientLocalIP);
        ("X-ClientPublicIP", clientPublicIP);
        ("X-MACAddress", macAddress);
        ("X-PrivateKey", apiKey)] in
     res_data ←
       lift (UpstoxService.await_get
               (http (Request "GET" (BASE_URL ++ "/order/v1/getPosition") VUndefined headers)));
     inner ← lift (Get res_data "data");
     let positions := logical_or inner (VArr []) in
     len ← lift (Get positions "length");
     if negb (ToBoolean len) then mret (VNum zero)
     else
       items ← lift (iterate positions);
       totalPnL ← lift (reduce_from add_position zero items);
       mret (VNum totalPnL))
    (fun err =>
       console_error "Error fetching Angel positions:" [error_or_data err];;
       mret (VNum zero)).

Definition placeIntradayOrder (args : value) : M value :=
  apiKey ← lift (Get args "apiKey");
  token ← lift (Get args "token");
  exchange ← lift (param args "exchange" (VStr "NSE"));
  tradingsymbol ← lift (Get args "tradingsymbol");
  symboltoken ← lift (Get args "symboltoken");
  transaction_type ← lift (param args "transaction_type" (VStr "BUY"));
  quantity ← lift (param args "quantity" (VNum one));
  price ← lift (param args "price" (VNum zero));
  clientLocalIP ← lift (param args "clientLocalIP" (VStr "127.0.0.1"));
  clientPublicIP ← lift (param args "clientPublicIP" (VStr "127.0.0.1"));
  macAddress ← lift (param args "macAddress" (VStr "AA:BB:CC:DD:EE:FF"));
  price_text ← lift (call_toString price);
  quantity_text ← lift (call_toString quantity);
  let data := VObj (list_to_map
    [("variety", VStr "NORMAL");
     ("tradingsymbol", tradingsymbol);
     ("symboltoken", symboltoken);
     ("transactiontype", transaction_type);
     ("exchange", exchange);
     ("ordertype", VStr "MARKET");
     ("producttype", VStr "INTRADAY");
     ("duration", VStr "DAY");
     ("price", price_text);
     ("squareoff", VStr "0");
     ("stoploss", VStr "0");
     ("quantity", quantity_text)]) in
  authorization ← lift (bearer token);
  let headers : gmap string value := list_to_map
    [("Authorization", authorization);
     ("X-PrivateKey", apiKey);
     ("X-UserType", VStr "USER");
     ("X-SourceID", VStr "WEB");
     ("X-ClientLocalIP", clientLocalIP);
     ("X-ClientPublicIP", clientPublicIP);
     ("X-MACAddress", macAddress);
     ("Accept", VStr "application/json");
     ("Content-Type", VStr "application/json")] in
  try_catch
    (response_data ←
       lift (UpstoxService.await_get
               (http (Request "POST" (BASE_URL ++ "/order/v1/placeOrder") data headers)));
     mret response_data)
    (fun err =>
       console_error "Error placing order:" [UpstoxService.error_detail err];;
       throw err).

(** The headers [getCandles] and [getMarketData] build from [adminKeys]. *)
Definition admin_headers (adminKeys : value) : completion (gmap string value) :=
  token ← Get adminKeys "token";
  authorization ← bearer token;
  apiKey ← Get adminKeys "apiKey";
  localIP ← Get adminKeys "localIP";
  publicIP ← Get adminKeys "publicIP";
  mac ← Get adminKeys "mac";
  Return (list_to_map
    [("Authorization", authorization);
     ("X-PrivateKey", apiKey);
     ("X-UserType", VStr "USER");
     ("X-SourceID", VStr "WEB");
     ("Accept", VStr "application/json");
     ("Content-Type", VStr "application/json");
     ("X-ClientLocalIP", logical_or localIP (VStr "127.0.0.1"));
     ("X-ClientPublicIP", logical_or publicIP (VStr "127.0.0.1"));
     ("X-MACAddress", logical_or mac (VStr "00-00-00-00-00-00"))]).

Definition getCandles (args : value) : M value :=
  exchange ← lift (Get args "exchange");
  symboltoken ← lift (Get args "symboltoken");
  interval ← lift (Get args "interval");
  fromdate ← lift (Get args "fromdate");
  todate ← lift (Get args "todate");
  adminKeys ← lift (Get args "adminKeys");
  let url :=
    "https://apiconnect.angelbroking.com/rest/secure/angelbroking/historical/v1/getCandleData" in
  headers ← lift (admin_headers adminKeys);
  let body := VObj (list_to_map
    [("exchange", exchange); ("symboltoken", symboltoken); ("interval", interval);
     ("fromdate", fromdate); ("todate", todate)]) in
  data ← lift (UpstoxService.await_get (http (Request "POST" url body headers)));
  mret data.

Definition getMarketData (args : value) : M value :=
  mode ← lift (Get args "mode");
  exchangeTokens ← lift (Get args "exchangeTokens");
  adminKeys ← lift (Get args "adminKeys");
  let url := "https://apiconnect.angelone.in/rest/secure/angelbroking/market/v1/quote/" in
  headers ← lift (admin_headers adminKeys);
  let body := VObj (list_to_map [("mode", mode); ("exchangeTokens", exchangeTokens)]) in
  try_catch
    (data ← lift (UpstoxService.await_get (http (Request "POST" url body headers)));
     mret data)
    (fun err =>
       console_error "Error fetching market data:" [UpstoxService.error_detail err];;
       throw err).

End Runtime.
End AngelOne.

(** ** More vocabulary *)

(** An entry of the catalog the filter callback cannot read: [undefined],
    [null], or a record whose asset symbol is there and is no string. *)
Definition unreadable (r : value) : Prop :=
  r = VUndefined \/ r = VNull \/
  (~ absent (field "asset_symbol" r) /\ ~ is_string (field "asset_symbol" r)).

(** An event of the event loop that is a tick or the end of a download in
    one of the three errors. *)
Definition tick_or_failure (rt : Builtins) (e : Scheduler.event) : Prop :=
  match e with
  | Scheduler.cron_tick => True
  | Scheduler.download_done _ ev => refresh_fails rt ev
  end.

(** A value other than [undefined] and [null]: its properties can be
    read. *)
Definition object_coercible (v : value) : Prop := v <> VUndefined /\ v <> VNull.

(** A position the loop of the Angel One [getTodaysPnL] adds nothing for:
    its [mtom] and its [netvalue] are both falsy. *)
Definition without_pnl (pos : value) : Prop :=
  object_coercible pos /\
  ToBoolean (field "mtom" pos) = false /\ ToBoolean (field "netvalue" pos) = false.

(** The request [placeIntradayOrder] of upstox.service.js sends for given
    values of its parameters. *)
Definition upstox_order_headers (authorization : value) : gmap string value :=
  list_to_map
    [("Authorization", authorization);
     ("Content-Type", VStr "application/json");
     ("Accept", VStr "application/json")].

(** ** More to evaluate on *)

(** A runtime that parses the text [0] as the number 0 and is
    [sample_runtime] otherwise. *)
Definition zero_runtime : Builtins := {|
  JSON_parse := fun text =>
    if String.eqb text "0" then Return (VNum zero) else JSON_parse sample_runtime text;
  StringToNumber := StringToNumber sample_runtime;
  NumberToString := NumberToString sample_runtime;
  OrdinaryToPrimitive := OrdinaryToPrimitive sample_runtime;
  parseFloat_string := parseFloat_string sample_runtime;
  toUpperCase_non_ascii := toUpperCase_non_ascii sample_runtime
|}.

(** The sample runtime, which also parses the text of the empty object. *)
Definition object_runtime : Builtins := {|
  JSON_parse := fun text =>
    if String.eqb text "{}" then Return (VObj ∅) else JSON_parse sample_runtime text;
  StringToNumber := StringToNumber sample_runtime;
  NumberToString := NumberToString sample_runtime;
  OrdinaryToPrimitive := OrdinaryToPrimitive sample_runtime;
  parseFloat_string := parseFloat_string sample_runtime;
  toUpperCase_non_ascii := toUpperCase_non_ascii sample_runtime
|}.

(** Two payloads that are JSON texts and no catalogs, as the one chunk of
    the gunzip stream, and the error of reading [length] on [null]. *)
Definition null_payload : UpstoxInstrument.download_event :=
  UpstoxInstrument.gunzip_end ["null"].

Definition object_payload : UpstoxInstrument.download_event :=
  UpstoxInstrument.gunzip_end ["{}"].

Definition length_of_null : error :=
  TypeError "Cannot read properties of null (reading 'length')".

(** An axios that answers every request the same way. *)
Definition answering (answer : UpstoxService.request_outcome) : axios := fun _ => answer.

Definition plain_toString : value -> completion value :=
  fun _ => Return (VStr "[object Object]").

Definition credentials : value :=
  VObj (list_to_map [("apiKey", VStr "key"); ("token", VStr "jwt")]).

(** A record of another symbol, and one whose asset symbol is a number. *)
Definition other_symbol_record : value := VObj (record "BANKNIFTY" 23300 "PE" "2024-12-26").

Definition numeric_symbol_record : value :=
  VObj (<["asset_symbol" := VNum (number_of_Z 7)]> (record "" 23300 "PE" "2024-12-26")).

(** Two ticks, whose downloads both fail. *)
Definition two_failed_cycles : list Scheduler.event :=
  [Scheduler.cron_tick; Scheduler.cron_tick;
   Scheduler.download_done 1 (UpstoxInstrument.gunzip_error (ZlibError "incorrect header check"));
   Scheduler.download_done 0 (UpstoxInstrument.get_rejected (AxiosError "timeout" None))].

(** Responses of the positions requests. *)
Definition positions_with_a_null : list value :=
  [VObj (<["pnl" := VStr "12.5"]> ∅); VNull].

Definition positions_body (data : value) : value :=
  VObj (<["status" := VStr "success"]> (<["data" := data]> ∅)).

(** Arguments of the order and data functions. *)
Definition upstox_order_args : value :=
  VObj (list_to_map [("token", VStr "jwt"); ("instrument_key", VStr "NSE_EQ|INE669E01016")]).

Definition order_args_with_null_price : value :=
  VObj (list_to_map
    [("apiKey", VStr "key"); ("token", VStr "jwt"); ("tradingsymbol", VStr "SBIN-EQ");
     ("symboltoken", VStr "3045"); ("price", VNull)]).

Definition candle_args (adminKeys : value) : value :=
  VObj (list_to_map
    [("exchange", VStr "NSE"); ("symboltoken", VStr "3045"); ("interval", VStr "ONE_MINUTE");
     ("adminKeys", adminKeys)]).

Definition credentials_headers : gmap string value :=
  list_to_map
    [("Authorization", VStr "Bearer jwt");
     ("X-PrivateKey", VStr "key");
     ("X-UserType", VStr "USER");
     ("X-SourceID", VStr "WEB");
     ("Accept", VStr "application/json");
     ("Content-Type", VStr "application/json");
     ("X-ClientLocalIP", VStr "127.0.0.1");
     ("X-ClientPublicIP", VStr "127.0.0.1");
     ("X-MACAddress", VStr "00-00-00-00-00-00")].

(** * Properties *)

(** ** The order of numbers and of strings *)

Lemma finite_compare_cases (e1 e2 : Z) (m1 m2 : positive) :
  match (e1 ?= e2)%Z with
  | Lt => (e1 < e2)%Z
  | Gt => (e2 < e1)%Z
  | Eq => e1 = e2 /\
      match Pos.compare_cont Eq m1 m2 with
      | Lt => (m1 < m2)%positive
      | Gt => (m2 < m1)%positive
      | Eq => m1 = m2
      end
  end.
Proof.
  destruct (Z.compare_spec e1 e2); try lia.
  split; [assumption|].
  change (Pos.compare_cont Eq m1 m2) with (Pos.compare m1 m2).
  destruct (Pos.compare_spec m1 m2); lia.
Qed.

(** [SFltb] is the order of the ranks. *)
Lemma SFltb_rank (x y : number) :
  is_NaN x = false -> is_NaN y = false ->
  SFltb x y = true <-> lex_lt (rank x) (rank y).
Proof.
  unfold SFltb, SFcompare, lex_lt, rank.
  destruct x as [[]|[]| |[] m1 e1], y as [[]|[]| |[] m2 e2]; intros Hx Hy;
    try discriminate; try (split; [intros ?; try discriminate; lia | intros ?; try reflexivity; lia]).
  all: pose proof (finite_compare_cases e1 e2 m1 m2) as H;
    destruct (e1 ?= e2)%Z; [destruct H as [? H]; destruct (Pos.compare_cont Eq m1 m2)| |];
    simpl; split; intros ?; try discriminate; try reflexivity; lia.
Qed.

Lemma SFltb_asym (x y : number) : SFltb x y = true -> SFltb y x = false.
Proof.
  intros H.
  destruct (is_NaN x) eqn:Hx; [destruct x; discriminate|].
  destruct (is_NaN y) eqn:Hy; [destruct y; try discriminate; reflexivity|].
  apply SFltb_rank in H; trivial.
  destruct (SFltb y x) eqn:H'; trivial.
  apply SFltb_rank in H'; trivial.
  unfold lex_lt in *. destruct (rank x) as [[? ?] ?], (rank y) as [[? ?] ?]. lia.
Qed.

Lemma SFltb_cotrans (x y z : number) :
  is_NaN z = false -> SFltb x y = true -> SFltb x z = true \/ SFltb z y = true.
Proof.
  intros Hz H.
  destruct (is_NaN x) eqn:Hx; [destruct x; discriminate|].
  destruct (is_NaN y) eqn:Hy; [destruct x, y; discriminate|].
  rewrite !SFltb_rank by trivial. apply SFltb_rank in H; trivial.
  unfold lex_lt in *.
  destruct (rank x) as [[? ?] ?], (rank y) as [[? ?] ?], (rank z) as [[? ?] ?]. lia.
Qed.

(** [SFeqb] is exact equality. *)
Lemma SFeqb_exact (x y : number) : SFeqb x y = true <-> exactly_equal x y.
Proof.
  unfold SFeqb, SFcompare, exactly_equal.
  destruct x as [[]|[]| |[] m1 e1], y as [[]|[]| |[] m2 e2]; simpl;
    try (split; [intros ?; try discriminate; auto | intros [? [?|[? ?]]]; try discriminate; reflexivity]).
  all: pose proof (finite_compare_cases e1 e2 m1 m2) as H;
    destruct (e1 ?= e2)%Z; [destruct H as [? H]; destruct (Pos.compare_cont Eq m1 m2)| |];
    simpl; (split; [intros ?; try discriminate; subst; auto
                   | intros [_ [E|[? ?]]]; try discriminate; try reflexivity; inversion E; lia]).
Qed.

Lemma string_lt_trans (s t u : string) :
  (s ?= t) = Lt -> (t ?= u) = Lt -> (s ?= u) = Lt.
Proof.
  revert t u. induction s as [|a s IH]; intros [|b t] [|c u]; simpl; try discriminate; trivial.
  unfold Ascii.compare.
  destruct (N.compare_spec (N_of_ascii a) (N_of_ascii b)),
           (N.compare_spec (N_of_ascii b) (N_of_ascii c)),
           (N.compare_spec (N_of_ascii a) (N_of_ascii c));
    try discriminate; try lia; eauto.
Qed.

Lemma string_ltb_asym (s t : string) : String.ltb s t = true -> String.ltb t s = false.
Proof.
  unfold String.ltb. rewrite (String.compare_antisym t s).
  destruct (s ?= t); simpl; congruence.
Qed.

Lemma string_ltb_cotrans (s t u : string) :
  String.ltb s t = true -> String.ltb s u = true \/ String.ltb u t = true.
Proof.
  unfold String.ltb. intros H.
  destruct (s ?= t) eqn:Hst; try discriminate.
  destruct (s ?= u) eqn:Hsu; [right | left; reflexivity | right].
  - apply String.compare_eq_iff in Hsu. subst u. now rewrite Hst.
  - assert (Hus : (u ?= s) = Lt) by (rewrite String.compare_antisym, Hsu; reflexivity).
    now rewrite (string_lt_trans u s t).
Qed.

(** ** The scan of [reduce] over an ordered kind *)

Section Pick.

Context {A : Type} (lt : A -> A -> bool) (D : A -> Prop).
Hypothesis lt_asym : forall x y, D x -> D y -> lt x y = true -> lt y x = false.
Hypothesis lt_cotrans :
  forall x y z, D x -> D y -> D z -> lt x y = true -> lt x z = true \/ lt z y = true.

Lemma pick_cons (acc x : A) (l : list A) :
  pick lt acc (x :: l) = pick lt (if lt x acc then x else acc) l.
Proof. reflexivity. Qed.

Lemma pick_in (l : list A) (acc : A) : In (pick lt acc l) (acc :: l).
Proof.
  revert acc. induction l as [|c l IH]; intros acc; [now left|].
  rewrite pick_cons. specialize (IH (if lt c acc then c else acc)).
  destruct (lt c acc); destruct IH as [<-|IH]; cbn [In]; auto.
Qed.

Lemma pick_domain (l : list A) (acc : A) : Forall D (acc :: l) -> D (pick lt acc l).
Proof. intros H. eapply List.Forall_forall; [exact H | apply pick_in]. Qed.

(** The scan returns an element that nothing after it undercuts and that
    undercuts everything before it. *)
Lemma pick_first_minimum (l : list A) (acc : A) :
  Forall D (acc :: l) ->
  exists l1 l2, acc :: l = (l1 ++ pick lt acc l :: l2)%list /\
    Forall (fun x => lt (pick lt acc l) x = true) l1 /\
    Forall (fun x => lt x (pick lt acc l) = false) l2.
Proof.
  revert acc. induction l as [|c l IH]; intros acc HD.
  - exists [], []. simpl. auto.
  - rewrite pick_cons.
    apply Forall_cons_1 in HD as [Hacc HD]. apply Forall_cons_1 in HD as [Hc Hl].
    destruct (lt c acc) eqn:Hlt.
    + assert (Hp : D (pick lt c l)) by (apply pick_domain; now constructor).
      destruct (IH c) as (l1 & l2 & E & H1 & H2); [now constructor|].
      exists (acc :: l1), l2. rewrite E. split; [reflexivity|]. split; [|assumption].
      constructor; [|assumption].
      destruct l1 as [|y l1]; simpl in E; injection E as E1 E2.
      * now rewrite <- E1.
      * subst y. apply Forall_cons_1 in H1 as [H1 _].
        destruct (lt_cotrans _ _ acc Hp Hc Hacc H1) as [?|H']; [assumption|].
        apply lt_asym in Hlt; trivial. congruence.
    + assert (Hp : D (pick lt acc l)) by (apply pick_domain; now constructor).
      destruct (IH acc) as (l1 & l2 & E & H1 & H2); [now constructor|].
      destruct l1 as [|y l1]; simpl in E; injection E as E1 E2.
      * exists [], (c :: l2). rewrite <- E1, <- E2.
        split; [reflexivity|]. split; [constructor|].
        constructor; [assumption | now rewrite E2, E1].
      * subst y. exists (acc :: c :: l1), l2.
        split; [cbn [app]; congruence|]. split; [|assumption].
        apply Forall_cons_1 in H1 as [H1 H1'].
        constructor; [assumption|]. constructor; [|assumption].
        destruct (lt_cotrans _ _ c Hp Hacc Hc H1) as [?|H']; [assumption|congruence].
Qed.

End Pick.

(** ** Letter case *)

Lemma upper_char_code (c : ascii) : N_of_ascii (upper_char c) = upper_code (N_of_ascii c).
Proof.
  unfold upper_char, upper_code. cbv zeta.
  pose proof (N_ascii_bounded c) as Hb.
  destruct ((97 <=? N_of_ascii c) && (N_of_ascii c <=? 122))%N; trivial.
  apply N_ascii_embedding. lia.
Qed.

Lemma N_of_ascii_inj (c d : ascii) : N_of_ascii c = N_of_ascii d -> c = d.
Proof. intros H. rewrite <- (ascii_N_embedding c), <- (ascii_N_embedding d). now rewrite H. Qed.

Lemma upper_char_same_letter (c d : ascii) : upper_char c = upper_char d <-> same_letter c d.
Proof.
  unfold same_letter, lower_case. split.
  - intros H. apply (f_equal N_of_ascii) in H. rewrite !upper_char_code in H.
    unfold upper_code in H.
    destruct (N.leb_spec 97 (N_of_ascii c)), (N.leb_spec (N_of_ascii c) 122),
             (N.leb_spec 97 (N_of_ascii d)), (N.leb_spec (N_of_ascii d) 122);
      simpl in H; try (left; apply N_of_ascii_inj; lia); try (right; lia).
  - intros H. apply N_of_ascii_inj. rewrite !upper_char_code. unfold upper_code.
    destruct H as [->|H]; trivial.
    destruct (N.leb_spec 97 (N_of_ascii c)), (N.leb_spec (N_of_ascii c) 122),
             (N.leb_spec 97 (N_of_ascii d)), (N.leb_spec (N_of_ascii d) 122);
      simpl; lia.
Qed.

Lemma same_letter_is_ascii (c d : ascii) : same_letter c d -> is_ascii c = is_ascii d.
Proof.
  unfold same_letter, lower_case, is_ascii. intros [->|[[H E]|[H E]]]; trivial.
  - rewrite E. destruct (N.ltb_spec (N_of_ascii c) 128), (N.ltb_spec (N_of_ascii c - 32) 128);
      trivial; lia.
  - rewrite E. destruct (N.ltb_spec (N_of_ascii d) 128), (N.ltb_spec (N_of_ascii d - 32) 128);
      trivial; lia.
Qed.

(** A character from 128 up is the same letter as itself only. *)
Lemma same_letter_outside_ascii (c d : ascii) :
  same_letter c d -> is_ascii c = false -> c = d.
Proof.
  unfold same_letter, lower_case, is_ascii. intros [->|[[H E]|[H E]]] Hc; trivial;
    apply N.ltb_ge in Hc; lia.
Qed.

Section LetterCase.

Variable rt : Builtins.

Lemma toUpperCase_from_ascii (run : string) (c : ascii) (s : string) :
  is_ascii c = true ->
  toUpperCase_from rt run (String c s) =
  upper_run rt run ++ String (upper_char c) (toUpperCase rt s).
Proof. intros H. cbn [toUpperCase_from]. now rewrite H. Qed.

Lemma toUpperCase_ascii (c : ascii) (s : string) :
  is_ascii c = true ->
  toUpperCase rt (String c s) = String (upper_char c) (toUpperCase rt s).
Proof. intros H. unfold toUpperCase at 1. now rewrite toUpperCase_from_ascii. Qed.

(** Strings equal up to the case of their ASCII letters have the same
    upper-case form, whatever the runtime makes of the other characters. *)
Lemma equal_up_to_case_same_upper_case (s t : string) :
  equal_up_to_case s t -> same_upper_case rt s t.
Proof.
  unfold same_upper_case, toUpperCase. generalize "" as run.
  intros run H. revert run. induction H as [|c d s t Hc _ IH]; intros run; trivial.
  cbn [toUpperCase_from]. rewrite <- (same_letter_is_ascii c d Hc).
  destruct (is_ascii c) eqn:Ha.
  - rewrite (proj2 (upper_char_same_letter c d) Hc), (IH ""). reflexivity.
  - rewrite <- (same_letter_outside_ascii c d Hc Ha). apply IH.
Qed.

(** On ASCII text, the same upper-case form means equality up to the case
    of the letters. *)
Lemma same_upper_case_ascii_text (s t : string) :
  ascii_text s = true -> ascii_text t = true ->
  same_upper_case rt s t -> equal_up_to_case s t.
Proof.
  unfold same_upper_case. revert t.
  induction s as [|c s IH]; intros [|d t] Hs Ht H; cbn [ascii_text] in Hs, Ht;
    try apply andb_prop in Hs as [Hc Hs]; try apply andb_prop in Ht as [Hd Ht].
  - constructor.
  - rewrite (toUpperCase_ascii d t Hd) in H. discriminate.
  - rewrite (toUpperCase_ascii c s Hc) in H. discriminate.
  - rewrite (toUpperCase_ascii c s Hc), (toUpperCase_ascii d t Hd) in H.
    injection H as Hcd Hst.
    constructor; [now apply upper_char_same_letter | now apply IH].
Qed.

Lemma eqb_toUpperCase (s t : string) :
  String.eqb (toUpperCase rt s) (toUpperCase rt t) = true <-> same_upper_case rt s t.
Proof. apply String.eqb_eq. Qed.

End LetterCase.

(** ** The filter of [getUpstoxOption] *)

Section Filter.

Import UpstoxInstrument.
Variable rt : Builtins.

Lemma bind_Return {A B : Type} (a : A) (f : A -> completion B) :
  (Return a ≫= f) = f a.
Proof. reflexivity. Qed.

Lemma bind_Throw {A B : Type} (e : error) (f : A -> completion B) :
  (Throw e ≫= f) = Throw e.
Proof. reflexivity. Qed.

Lemma Get_object (properties : gmap string value) (key : string) :
  Get (VObj properties) key = Return (field key (VObj properties)).
Proof. reflexivity. Qed.

(** The callback returns [true] exactly on the matching records. *)
Lemma matches_true_iff (a : string) (sp : number) (o : string) (r : value) :
  matches rt a sp o r = Return true <-> is_match rt a sp o r.
Proof.
  unfold matches, is_match.
  destruct r as [| |b|n|s|l|m]; cbn [Get field].
  1-6: try (destruct (String.eqb _ _)); rewrite ?bind_Return, ?bind_Throw; cbn;
    (split; [discriminate | intros [(? & ? & _) _]; discriminate]).
  rewrite !bind_Return.
  destruct (default VUndefined (m !! "asset_symbol")) as [| |b|n|s|l|m'];
    cbn [optional_toUpperCase mbind completion_bind strict_equals_string];
    try (split; [discriminate | intros [(? & ? & _) _]; discriminate]).
  destruct (String.eqb (toUpperCase rt s) (toUpperCase rt a)) eqn:Ha.
  2:{ split; [discriminate|]. intros [(s' & E & H) _]. injection E as <-.
      apply eqb_toUpperCase in H. congruence. }
  apply eqb_toUpperCase in Ha.
  destruct (default VUndefined (m !! "strike_price")) as [| |b|n|s'|l|m'];
    cbn [strict_equals_number];
    try (split; [discriminate | intros (_ & (? & ? & _) & _); discriminate]).
  destruct (SFeqb n sp) eqn:Hn.
  2:{ split; [discriminate|]. intros (_ & (n' & E & H) & _). injection E as <-.
      apply SFeqb_exact in H. congruence. }
  apply SFeqb_exact in Hn.
  destruct (default VUndefined (m !! "instrument_type")) as [| |b|n'|t|l|m'];
    cbn [optional_toUpperCase mbind completion_bind strict_equals_string];
    try (split; [discriminate | intros (_ & _ & (? & ? & _)); discriminate]).
  split.
  - intros H. injection H as H. apply eqb_toUpperCase in H. eauto 10.
  - intros (_ & _ & (t' & E & H)). injection E as <-.
    apply eqb_toUpperCase in H. now rewrite H.
Qed.

Lemma filter_elements_cons (callback : value -> completion bool) (x : value)
  (l kept : list value) :
  filter_elements callback (x :: l) = Return kept ->
  exists (keep : bool) (rest : list value),
    callback x = Return keep /\ filter_elements callback l = Return rest /\
    kept = if keep then x :: rest else rest.
Proof.
  cbn [filter_elements]. destruct (callback x) as [keep|e]; [|discriminate].
  rewrite bind_Return. destruct (filter_elements callback l) as [rest|e]; [|discriminate].
  rewrite bind_Return. intros H. injection H as <-. eauto.
Qed.

(** The filter keeps exactly the elements on which the callback returns
    [true]. *)
Lemma filter_elements_elem_of (callback : value -> completion bool) (l kept : list value) :
  filter_elements callback l = Return kept ->
  forall x, x ∈ kept <-> x ∈ l /\ callback x = Return true.
Proof.
  revert kept. induction l as [|y l IH]; intros kept H x.
  - injection H as <-. rewrite !elem_of_nil. tauto.
  - apply filter_elements_cons in H as (keep & rest & Hy & Hl & ->).
    specialize (IH _ Hl x). rewrite elem_of_cons.
    destruct keep; [rewrite elem_of_cons|]; rewrite IH; split.
    + intros [->|[? ?]]; auto.
    + intros [[->|?] ?]; auto.
    + intros [? ?]; auto.
    + intros [[->|?] ?]; [congruence|auto].
Qed.

(** The filter keeps the order: a kept element splits the array where it
    splits the kept ones. *)
Lemma filter_elements_split (callback : value -> completion bool) (l m1 m2 : list value)
  (r : value) :
  filter_elements callback l = Return (m1 ++ r :: m2)%list ->
  exists l1 l2, l = (l1 ++ r :: l2)%list /\
    filter_elements callback l1 = Return m1 /\
    filter_elements callback l2 = Return m2 /\
    callback r = Return true.
Proof.
  revert m1. induction l as [|y l IH]; intros m1 H.
  - injection H as H. destruct m1; discriminate.
  - apply filter_elements_cons in H as (keep & rest & Hy & Hl & E).
    destruct keep.
    + destruct m1 as [|z m1]; cbn [app] in E; injection E as E1 E2.
      * subst y rest. exists [], l. cbn [app filter_elements]. auto.
      * subst z rest. destruct (IH _ Hl) as (l1 & l2 & -> & H1 & H2 & Hr).
        exists (y :: l1), l2. cbn [app filter_elements]. rewrite Hy, H1. auto.
    + subst rest. destruct (IH _ Hl) as (l1 & l2 & -> & H1 & H2 & Hr).
      exists (y :: l1), l2. cbn [app filter_elements]. rewrite Hy, H1. auto.
Qed.

Lemma filter_elements_app (callback : value -> completion bool) (l1 l2 : list value) :
  filter_elements callback (l1 ++ l2)%list =
  (kept1 ← filter_elements callback l1;
   kept2 ← filter_elements callback l2;
   Return (kept1 ++ kept2)%list).
Proof.
  induction l1 as [|x l1 IH]; cbn [app filter_elements].
  - rewrite bind_Return. destruct (filter_elements callback l2); reflexivity.
  - destruct (callback x) as [keep|e]; [|reflexivity]. rewrite !bind_Return, IH.
    destruct (filter_elements callback l1) as [k1|e]; [|reflexivity]. rewrite !bind_Return.
    destruct (filter_elements callback l2) as [k2|e]; [|reflexivity]. rewrite !bind_Return.
    now destruct keep.
Qed.

End Filter.

(** ** The scan of [getUpstoxOption] *)

Section Scan.

Import UpstoxInstrument.
Variable rt : Builtins.

Lemma field_defined (key : string) (r : value) :
  field key r <> VUndefined -> exists properties, r = VObj properties.
Proof. destruct r; cbn [field]; try congruence. eauto. Qed.

Lemma Get_field (key : string) (r : value) :
  field key r <> VUndefined -> Get r key = Return (field key r).
Proof. intros H. apply field_defined in H as [m ->]. reflexivity. Qed.

Lemma less_than_numbers (x y : number) :
  less_than rt (VNum x) (VNum y) = Return (SFltb x y).
Proof. reflexivity. Qed.

Lemma less_than_strings (s t : string) :
  less_than rt (VStr s) (VStr t) = Return (String.ltb s t).
Proof. reflexivity. Qed.

Section Kind.

(** A kind [P] of expiry values on which [<] cannot throw. *)
Variable P : value -> Prop.
Hypothesis P_defined : forall v, P v -> v <> VUndefined.
Hypothesis P_total : forall v w, P v -> P w -> exists b, less_than rt v w = Return b.

Lemma expires_before_true (x y : value) :
  P (expiry_of x) -> P (expiry_of y) ->
  expires_before rt x y = true <-> less_than rt (expiry_of x) (expiry_of y) = Return true.
Proof.
  intros Hx Hy. unfold expires_before.
  destruct (P_total _ _ Hx Hy) as [b ->]. split; congruence.
Qed.

Lemma expires_before_false (x y : value) :
  P (expiry_of x) -> P (expiry_of y) ->
  expires_before rt x y = false <-> less_than rt (expiry_of x) (expiry_of y) = Return false.
Proof.
  intros Hx Hy. unfold expires_before.
  destruct (P_total _ _ Hx Hy) as [b ->]. split; congruence.
Qed.

Lemma earlier_pick (earliest current : value) :
  P (expiry_of earliest) -> P (expiry_of current) ->
  earlier rt earliest current =
  Return (if expires_before rt current earliest then current else earliest).
Proof.
  intros He Hc. unfold earlier, expires_before.
  rewrite !Get_field by (apply P_defined; assumption). rewrite !bind_Return.
  fold (expiry_of current) (expiry_of earliest).
  destruct (P_total _ _ Hc He) as [b ->]. reflexivity.
Qed.

Lemma reduce_from_pick (l : list value) (acc : value) :
  Forall (fun r => P (expiry_of r)) (acc :: l) ->
  reduce_from (earlier rt) acc l = Return (pick (expires_before rt) acc l).
Proof.
  revert acc. induction l as [|c l IH]; intros acc H; [reflexivity|].
  apply Forall_cons_1 in H as [Hacc H]. apply Forall_cons_1 in H as [Hc Hl].
  cbn [reduce_from]. rewrite earlier_pick, bind_Return, pick_cons by assumption.
  apply IH. constructor; [|assumption]. now destruct (expires_before rt c acc).
Qed.

End Kind.

Lemma ordered_number_defined (v : value) : is_ordered_number v -> v <> VUndefined.
Proof. intros (n & -> & _). discriminate. Qed.

Lemma ordered_number_total (v w : value) :
  is_ordered_number v -> is_ordered_number w -> exists b, less_than rt v w = Return b.
Proof. intros (x & -> & _) (y & -> & _). rewrite less_than_numbers. eauto. Qed.

Lemma string_defined (v : value) : is_string v -> v <> VUndefined.
Proof. intros (s & ->). discriminate. Qed.

Lemma string_total (v w : value) :
  is_string v -> is_string w -> exists b, less_than rt v w = Return b.
Proof. intros (s & ->) (t & ->). rewrite less_than_strings. eauto. Qed.

Lemma expires_before_numbers_asym (x y : value) :
  is_ordered_number (expiry_of x) -> is_ordered_number (expiry_of y) ->
  expires_before rt x y = true -> expires_before rt y x = false.
Proof.
  unfold expires_before. intros (n & -> & _) (m & -> & _).
  rewrite !less_than_numbers. apply SFltb_asym.
Qed.

Lemma expires_before_numbers_cotrans (x y z : value) :
  is_ordered_number (expiry_of x) -> is_ordered_number (expiry_of y) ->
  is_ordered_number (expiry_of z) ->
  expires_before rt x y = true ->
  expires_before rt x z = true \/ expires_before rt z y = true.
Proof.
  unfold expires_before. intros (n & -> & _) (m & -> & _) (k & -> & Hk).
  rewrite !less_than_numbers. now apply SFltb_cotrans.
Qed.

Lemma expires_before_strings_asym (x y : value) :
  is_string (expiry_of x) -> is_string (expiry_of y) ->
  expires_before rt x y = true -> expires_before rt y x = false.
Proof.
  unfold expires_before. intros (s & ->) (t & ->).
  rewrite !less_than_strings. apply string_ltb_asym.
Qed.

Lemma expires_before_strings_cotrans (x y z : value) :
  is_string (expiry_of x) -> is_string (expiry_of y) -> is_string (expiry_of z) ->
  expires_before rt x y = true ->
  expires_before rt x z = true \/ expires_before rt z y = true.
Proof.
  unfold expires_before. intros (s & ->) (t & ->) (u & ->).
  rewrite !less_than_strings. apply string_ltb_cotrans.
Qed.

(** The scan over records whose expiries are of one ordered kind: the
    result is a minimum, and everything before it expires strictly later. *)
Lemma scan_first_minimum (matching : list value) :
  matching <> [] -> comparable_expiries matching ->
  exists r m1 m2,
    reduce1 (earlier rt) matching = Return r /\
    matching = (m1 ++ r :: m2)%list /\
    (forall x, x ∈ matching -> less_than rt (expiry_of x) (expiry_of r) = Return false) /\
    (forall x, x ∈ m1 -> less_than rt (expiry_of r) (expiry_of x) = Return true).
Proof.
  intros Hne Hkind. destruct matching as [|acc l]; [congruence|]. clear Hne.
  cbn [reduce1].
  assert (exists P : value -> Prop,
    (forall v, P v -> v <> VUndefined) /\
    (forall v w, P v -> P w -> exists b, less_than rt v w = Return b) /\
    (forall x y, P (expiry_of x) -> P (expiry_of y) ->
       expires_before rt x y = true -> expires_before rt y x = false) /\
    (forall x y z, P (expiry_of x) -> P (expiry_of y) -> P (expiry_of z) ->
       expires_before rt x y = true ->
       expires_before rt x z = true \/ expires_before rt z y = true) /\
    Forall (fun r => P (expiry_of r)) (acc :: l)) as (P & Hdef & Htot & Hasym & Hcot & HD).
  { destruct Hkind as [H|H].
    - exists is_ordered_number.
      eauto 10 using ordered_number_defined, ordered_number_total,
        expires_before_numbers_asym, expires_before_numbers_cotrans.
    - exists is_string.
      eauto 10 using string_defined, string_total,
        expires_before_strings_asym, expires_before_strings_cotrans. }
  pose proof (pick_domain (expires_before rt) _ l acc HD) as Hp.
  destruct (pick_first_minimum (expires_before rt) (fun r => P (expiry_of r)) Hasym Hcot l acc HD)
    as (l1 & l2 & E & H1 & H2).
  exists (pick (expires_before rt) acc l), l1, l2.
  split; [now apply reduce_from_pick with (P := P)|]. split; [assumption|].
  rewrite E in HD. apply Forall_app in HD as [HD1 HD2]. apply Forall_cons_1 in HD2 as [_ HD2].
  rewrite List.Forall_forall in H1, H2, HD1, HD2.
  assert (Hirr : expires_before rt (pick (expires_before rt) acc l)
                   (pick (expires_before rt) acc l) = false).
  { destruct (expires_before rt _ _) eqn:Hirr; trivial.
    pose proof (Hasym _ _ Hp Hp Hirr). congruence. }
  split.
  - intros x Hx. rewrite E in Hx.
    apply elem_of_app in Hx as [Hx|Hx]; [|apply elem_of_cons in Hx as [->|Hx]].
    + apply list_elem_of_In in Hx.
      apply (expires_before_false P Htot); [apply HD1, Hx | exact Hp |].
      apply Hasym; [exact Hp | apply HD1, Hx | apply H1, Hx].
    + apply (expires_before_false P Htot); assumption.
    + apply list_elem_of_In in Hx.
      apply (expires_before_false P Htot); [apply HD2, Hx | exact Hp | apply H2, Hx].
  - intros x Hx. apply list_elem_of_In in Hx.
    apply (expires_before_true P Htot); [exact Hp | apply HD1, Hx | apply H1, Hx].
Qed.

(** The lookup on an array: no line is printed, the cache stays, and the
    result is the scan of the filtered records. *)
Lemma getUpstoxOption_array (a : string) (sp : number) (o : string) (catalog : list value) :
  getUpstoxOption rt a sp o (VArr catalog) =
  Outcome (VArr catalog) []
    (matching ← filter_elements (matches rt a sp o) catalog;
     if (length matching =? 0)%nat then Return VNull else reduce1 (earlier rt) matching).
Proof.
  unfold getUpstoxOption.
  cbv [mbind M_bind mret M_ret read_cache lift cache_after printed result ToBoolean negb
       call_filter].
  destruct (filter_elements (matches rt a sp o) catalog) as [matching|e]; [|reflexivity].
  cbv [completion_bind]. destruct (length matching =? 0)%nat; reflexivity.
Qed.

(** The lookup on an empty cache. *)
Lemma getUpstoxOption_falsy (a : string) (sp : number) (o : string) (cache : value) :
  ToBoolean cache = false ->
  getUpstoxOption rt a sp o cache =
  Outcome cache
    [Line stderr "Instrument cache is not populated. Please run the download first." []]
    (Return VNull).
Proof.
  intros H. unfold getUpstoxOption.
  cbv [mbind M_bind mret M_ret read_cache console_error cache_after printed result].
  rewrite H. reflexivity.
Qed.

End Scan.

(** ** The lookup *)

Section Lookup.

Import UpstoxInstrument.
Variable rt : Builtins.

(** C1. On a populated catalog on which the filter completes and whose
    matching records have expiries of one ordered kind: when no record
    matches, [getUpstoxOption] returns [null] and does not throw; otherwise
    it returns a matching record [r] of the catalog such that no matching
    record expires before [r] (the minimum expiry), and every matching
    record that occurs before [r] in the catalog expires strictly after [r]
    (among the records of minimal expiry, [r] is the first in catalog
    order). *)
Theorem getUpstoxOption_earliest_expiry (a : string) (sp : number) (o : string)
  (catalog matching : list value) :
  filter_elements (matches rt a sp o) catalog = Return matching ->
  comparable_expiries matching ->
  (matching = [] -> result (getUpstoxOption rt a sp o (VArr catalog)) = Return VNull) /\
  (matching <> [] ->
   exists r before after,
     result (getUpstoxOption rt a sp o (VArr catalog)) = Return r /\
     catalog = (before ++ r :: after)%list /\
     is_match rt a sp o r /\
     (forall x, x ∈ catalog -> is_match rt a sp o x ->
        less_than rt (expiry_of x) (expiry_of r) = Return false) /\
     (forall x, x ∈ before -> is_match rt a sp o x ->
        less_than rt (expiry_of r) (expiry_of x) = Return true)).
Proof.
  intros Hfilter Hkind. rewrite getUpstoxOption_array, Hfilter, bind_Return.
  cbn [result]. split.
  - intros ->. reflexivity.
  - intros Hne.
    destruct (scan_first_minimum rt matching Hne Hkind) as (r & m1 & m2 & Hr & E & Hmin & Hfirst).
    rewrite E in Hfilter.
    destruct (filter_elements_split _ _ _ _ _ Hfilter) as (l1 & l2 & Hcat & Hl1 & Hl2 & Hmatch).
    rewrite <- E in Hfilter.
    exists r, l1, l2.
    destruct matching as [|y matching]; [congruence|]. cbn [length Nat.eqb].
    split; [exact Hr|]. split; [exact Hcat|]. split; [now apply matches_true_iff|].
    split.
    + intros x Hx Hm. apply Hmin.
      apply (filter_elements_elem_of _ _ _ Hfilter). split; [exact Hx | now apply matches_true_iff].
    + intros x Hx Hm. apply Hfirst.
      apply (filter_elements_elem_of _ _ _ Hl1). split; [exact Hx | now apply matches_true_iff].
Qed.

(** C2, as amended. A lookup on the empty cache returns [null], the very
    value a lookup on a populated catalog without a matching record returns;
    the two differ in the console only, where the first prints one line on
    [stderr] and the second prints nothing. *)
Theorem not_ready_returns_null_like_no_match (a : string) (sp : number) (o : string)
  (catalog : list value) :
  filter_elements (matches rt a sp o) catalog = Return [] ->
  result (getUpstoxOption rt a sp o initial_cache) = Return VNull /\
  result (getUpstoxOption rt a sp o (VArr catalog)) = Return VNull /\
  printed (getUpstoxOption rt a sp o initial_cache) =
    [Line stderr "Instrument cache is not populated. Please run the download first." []] /\
  printed (getUpstoxOption rt a sp o (VArr catalog)) = [].
Proof.
  intros Hfilter. rewrite getUpstoxOption_array, Hfilter.
  rewrite getUpstoxOption_falsy by reflexivity. auto.
Qed.

(** A cache that holds an object, which [JSON.parse] gives for a payload
    that is no array, is not empty for the lookup, and the lookup throws. *)
Remark getUpstoxOption_on_an_object_throws (a : string) (sp : number) (o : string)
  (properties : gmap string value) :
  result (getUpstoxOption rt a sp o (VObj properties)) =
  Throw (TypeError "filter is not a function").
Proof. reflexivity. Qed.

(** C4. When the filter of a lookup on a populated catalog completes, a
    record is among the filtered ones if and only if it is in the catalog,
    its asset symbol is a string equal to the queried one up to letter case,
    its strike price is a number exactly equal to the queried one, and its
    instrument type is a string equal to the queried option type up to
    letter case. Equal up to letter case are two strings with one upper-case
    form: strings that differ in the case of their ASCII letters only always
    are, and between two ASCII texts these are the only ones, whatever the
    runtime makes of the letters outside ASCII. So a record with asset
    symbol NIFTY and instrument type pe satisfies the callback for the
    query (nifty, strike, PE) at its own strike. *)
Theorem filter_keeps_exactly_the_matches (a : string) (sp : number) (o : string)
  (catalog matching : list value) :
  call_filter (VArr catalog) (matches rt a sp o) = Return matching ->
  (forall r, r ∈ matching <-> r ∈ catalog /\ is_match rt a sp o r) /\
  (forall s t, equal_up_to_case s t -> same_upper_case rt s t) /\
  (forall s t, ascii_text s = true -> ascii_text t = true ->
     (same_upper_case rt s t <-> equal_up_to_case s t)) /\
  (forall (strike : number) (properties : gmap string value),
     is_NaN strike = false ->
     properties !! "asset_symbol" = Some (VStr "NIFTY") ->
     properties !! "strike_price" = Some (VNum strike) ->
     properties !! "instrument_type" = Some (VStr "pe") ->
     matches rt "nifty" strike "PE" (VObj properties) = Return true).
Proof.
  cbn [call_filter]. intros Hfilter. split; [|split; [|split]].
  - intros r. rewrite (filter_elements_elem_of _ _ _ Hfilter), matches_true_iff. tauto.
  - apply equal_up_to_case_same_upper_case.
  - intros s t Hs Ht. split.
    + now apply same_upper_case_ascii_text.
    + apply equal_up_to_case_same_upper_case.
  - intros strike m Hnan Ha Hs Ht. apply matches_true_iff. unfold is_match, field.
    rewrite Ha, Hs, Ht. cbn [default from_option]. split; [|split].
    + exists "NIFTY". split; reflexivity.
    + exists strike. split; [reflexivity|]. unfold exactly_equal. auto.
    + exists "pe". split; reflexivity.
Qed.

(** C7. [getUpstoxOption] leaves the cache as it found it, so a second call
    with the same arguments runs on the same snapshot, and it has the same
    outcome as the first: the same result and the same printed lines. *)
Theorem getUpstoxOption_read_only_and_repeatable (a : string) (sp : number) (o : string)
  (cache : value) :
  cache_after (getUpstoxOption rt a sp o cache) = cache /\
  getUpstoxOption rt a sp o (cache_after (getUpstoxOption rt a sp o cache)) =
  getUpstoxOption rt a sp o cache.
Proof.
  assert (H : cache_after (getUpstoxOption rt a sp o cache) = cache).
  { unfold getUpstoxOption.
    cbv [mbind M_bind mret M_ret read_cache lift console_error cache_after printed result].
    destruct (negb (ToBoolean cache)); [reflexivity|].
    destruct (call_filter cache (matches rt a sp o)) as [matching|e]; [|reflexivity].
    destruct (length matching =? 0)%nat; reflexivity. }
  split; [exact H | now rewrite H].
Qed.

(** The result of the lookup on an array, when it is not [null], is one of
    the records the callback accepts. *)
Lemma getUpstoxOption_result_matches (a : string) (sp : number) (o : string)
  (catalog : list value) (r : value) :
  result (getUpstoxOption rt a sp o (VArr catalog)) = Return r ->
  r = VNull \/ matches rt a sp o r = Return true.
Proof.
  rewrite getUpstoxOption_array. cbn [result].
  destruct (filter_elements (matches rt a sp o) catalog) as [matching|e] eqn:Hfilter; [|discriminate].
  rewrite bind_Return. destruct matching as [|y l]; cbn [length Nat.eqb reduce1].
  - intros H. injection H as <-. now left.
  - intros H. right.
    assert (Hin : forall l acc, reduce_from (earlier rt) acc l = Return r -> In r (acc :: l)).
    { clear. induction l as [|c l IH]; intros acc H; cbn [reduce_from] in H.
      - injection H as ->. now left.
      - destruct (earlier rt acc c) as [acc'|e] eqn:He; [|discriminate].
        rewrite bind_Return in H. apply IH in H.
        unfold earlier in He.
        destruct (Get c "expiry"); [|discriminate]. rewrite bind_Return in He.
        destruct (Get acc "expiry"); [|discriminate]. rewrite bind_Return in He.
        destruct (less_than rt _ _) as [[]|]; [| |discriminate];
          rewrite bind_Return in He; injection He as <-; cbn [In] in *; tauto. }
    apply Hin in H. apply list_elem_of_In in H.
    now apply (filter_elements_elem_of _ _ _ Hfilter) in H.
Qed.

(** C9. A record object whose asset symbol or instrument type is absent
    (no such property, [undefined] or [null]), its asset symbol being a
    string when it is there, does not satisfy the callback, which returns [false] on it and
    does not throw; the lookup on a catalog that holds the record completes
    as the lookup on the catalog without it does (the same returned record,
    or the same error when another record makes it throw), and never
    returns the record. *)
Theorem missing_string_fields_are_skipped (a : string) (sp : number) (o : string)
  (properties : gmap string value) (before after : list value) :
  let r := VObj properties in
  absent (field "asset_symbol" r) \/ is_string (field "asset_symbol" r) ->
  absent (field "asset_symbol" r) \/ absent (field "instrument_type" r) ->
  matches rt a sp o r = Return false /\
  result (getUpstoxOption rt a sp o (VArr (before ++ r :: after))) =
    result (getUpstoxOption rt a sp o (VArr (before ++ after))) /\
  result (getUpstoxOption rt a sp o (VArr (before ++ r :: after))) <> Return r.
Proof.
  intros r Hsym Hmissing.
  assert (Hr : matches rt a sp o r = Return false).
  { unfold matches. subst r. rewrite !Get_object, !bind_Return.
    destruct Hsym as [[Hs|Hs]|[s Hs]]; rewrite Hs;
      cbn [optional_toUpperCase mbind completion_bind strict_equals_string]; trivial.
    destruct (String.eqb _ _); trivial.
    destruct (strict_equals_number _ _); trivial.
    destruct Hmissing as [[Hm|Hm]|[Hm|Hm]]; try congruence; rewrite Hm; reflexivity. }
  split; [exact Hr|]. split.
  - rewrite !getUpstoxOption_array. cbn [result].
    rewrite !filter_elements_app. cbn [filter_elements]. rewrite Hr, bind_Return.
    destruct (filter_elements (matches rt a sp o) before) as [k1|e]; [|reflexivity].
    rewrite !bind_Return.
    destruct (filter_elements (matches rt a sp o) after) as [k2|e]; reflexivity.
  - intros H. apply getUpstoxOption_result_matches in H as [H|H]; [discriminate|congruence].
Qed.

End Lookup.

(** ** Computations that keep the cache, computations that do not throw *)

Section Monad.

Context {A B : Type}.

Lemma bind_run (m : M A) (f : A -> M B) (cache : value) :
  (m ≫= f) cache =
  match result (m cache) with
  | Return a =>
      Outcome (cache_after (f a (cache_after (m cache))))
        (printed (m cache) ++ printed (f a (cache_after (m cache))))
        (result (f a (cache_after (m cache))))
  | Throw e => Outcome (cache_after (m cache)) (printed (m cache)) (Throw e)
  end.
Proof. reflexivity. Qed.

Lemma try_catch_run (body : M A) (handler : error -> M A) (cache : value) :
  try_catch body handler cache =
  match result (body cache) with
  | Return a => body cache
  | Throw e =>
      Outcome (cache_after (handler e (cache_after (body cache))))
        (printed (body cache) ++ printed (handler e (cache_after (body cache))))
        (result (handler e (cache_after (body cache))))
  end.
Proof. reflexivity. Qed.

Lemma read_only_bind (m : M A) (f : A -> M B) :
  read_only m -> (forall a, read_only (f a)) -> read_only (m ≫= f).
Proof.
  intros Hm Hf cache. rewrite bind_run.
  destruct (result (m cache)); cbn [cache_after]; [rewrite Hf|]; apply Hm.
Qed.

Lemma read_only_try_catch (body : M A) (handler : error -> M A) :
  read_only body -> (forall e, read_only (handler e)) -> read_only (try_catch body handler).
Proof.
  intros Hb Hh cache. rewrite try_catch_run.
  destruct (result (body cache)); cbn [cache_after]; [|rewrite Hh]; apply Hb.
Qed.

Lemma read_only_lift (c : completion A) : read_only (lift c).
Proof. intros cache. reflexivity. Qed.

Lemma read_only_throw (e : error) : read_only (throw (A := A) e).
Proof. intros cache. reflexivity. Qed.

Lemma read_only_mret (a : A) : read_only (mret a : M A).
Proof. intros cache. reflexivity. Qed.

Lemma read_only_if (b : bool) (m1 m2 : M A) :
  read_only m1 -> read_only m2 -> read_only (if b then m1 else m2).
Proof. now destruct b. Qed.

Lemma never_throws_try_catch (body : M A) (handler : error -> M A) :
  (forall e, never_throws (handler e)) -> never_throws (try_catch body handler).
Proof.
  intros Hh cache. rewrite try_catch_run.
  destruct (result (body cache)) as [a|e] eqn:Hb; [eauto|]. cbn [result]. apply Hh.
Qed.

End Monad.

Lemma read_only_read_cache : read_only read_cache.
Proof. intros cache. reflexivity. Qed.

Lemma read_only_console_log (text : string) (args : list console_arg) :
  read_only (console_log text args).
Proof. intros cache. reflexivity. Qed.

Lemma read_only_console_error (text : string) (args : list console_arg) :
  read_only (console_error text args).
Proof. intros cache. reflexivity. Qed.

Lemma never_throws_console_error (text : string) (args : list console_arg) :
  never_throws (console_error text args).
Proof. intros cache. now exists tt. Qed.

Create HintDb read_only.
#[local] Hint Resolve read_only_lift read_only_throw read_only_mret read_only_read_cache
  read_only_console_log read_only_console_error : read_only.

Ltac keep_cache :=
  repeat first
    [ progress intros
    | apply read_only_bind
    | apply read_only_try_catch
    | apply read_only_if
    | solve [auto with read_only] ].

(** Unfolds the operations of [M], leaving the completions of the calls. *)
Ltac run_monad :=
  cbv [mbind M_bind mret M_ret lift throw read_cache write_cache console_log console_error
       try_catch result cache_after printed completion_bind].

(** ** The refresh cycle *)

Section Refresh.

Import UpstoxInstrument.
Variable rt : Builtins.

(** A download that ends in one of the three errors rejects, prints the
    error on [stderr] and keeps the cache. *)
Lemma failed_download_settle (ev : download_event) (cache : value) :
  refresh_fails rt ev ->
  exists e line,
    download_settle rt ev cache = Outcome cache [line] (Throw e) /\ stream line = stderr.
Proof.
  intros [H|[H|H]]; destruct ev as [err|err|err|chunks]; try contradiction; cbn in H.
  1-3: eexists _, _; split; reflexivity.
  destruct H as [e H]. cbn [download_settle]. unfold on_end.
  rewrite try_catch_run, bind_run. unfold lift at 1. cbn [result cache_after printed].
  rewrite H. cbn [result cache_after printed]. eexists _, _. split; reflexivity.
Qed.

Lemma failed_download (ev : download_event) (cache : value) :
  refresh_fails rt ev ->
  exists e line,
    downloadAndPopulateCache rt ev cache =
      Outcome cache
        [Line stdout "Starting instruments download for in-memory cache..." []; line]
        (Throw e) /\
    stream line = stderr.
Proof.
  intros H. destruct (failed_download_settle ev cache H) as (e & line & Hs & Hl).
  exists e, line. split; [|exact Hl].
  unfold downloadAndPopulateCache. rewrite bind_run. cbn [download_start console_log result
    cache_after printed]. rewrite Hs. reflexivity.
Qed.

Lemma failed_download_read_only (ev : download_event) :
  refresh_fails rt ev -> read_only (downloadAndPopulateCache rt ev).
Proof.
  intros H cache. destruct (failed_download ev cache H) as (e & line & -> & _). reflexivity.
Qed.

Lemma main_read_only (ev : download_event) :
  read_only (downloadAndPopulateCache rt ev) -> read_only (main rt ev).
Proof.
  intros H. unfold main. keep_cache.
Qed.

Lemma main_never_throws (ev : download_event) : never_throws (main rt ev).
Proof.
  unfold main. apply never_throws_try_catch. intros e.
  destruct (instanceof_SyntaxError e); apply never_throws_console_error.
Qed.

Lemma cron_settle_never_throws (ev : download_event) : never_throws (cron_settle rt ev).
Proof.
  unfold cron_settle. apply never_throws_try_catch. intros e.
  apply never_throws_console_error.
Qed.

(** The cron callback completes normally, however the download ends. *)
Lemma cron_callback_never_throws (ev : download_event) : never_throws (cron_callback rt ev).
Proof.
  intros cache. unfold cron_callback. rewrite bind_run. cbn [cron_fire].
  destruct (cron_settle_never_throws ev cache) as [[] H].
  exists tt. cbn. exact H.
Qed.

Lemma cron_fire_run (cache : value) :
  cron_fire cache =
  Outcome cache
    [Line stdout "Cron job: Starting daily instruments cache update." [];
     Line stdout "Starting instruments download for in-memory cache..." []]
    (Return tt).
Proof. reflexivity. Qed.

Lemma failed_cron_callback (ev : download_event) (cache : value) :
  refresh_fails rt ev ->
  exists e line,
    cron_callback rt ev cache =
      Outcome cache
        [Line stdout "Cron job: Starting daily instruments cache update." [];
         Line stdout "Starting instruments download for in-memory cache..." [];
         line;
         Line stderr "Daily cache update failed:" [ArgError e]]
        (Return tt) /\
    stream line = stderr.
Proof.
  intros H. destruct (failed_download_settle ev cache H) as (e & line & Hs & Hl).
  exists e, line. split; [|exact Hl].
  unfold cron_callback. rewrite bind_run, cron_fire_run. cbn [result cache_after printed].
  unfold cron_settle. rewrite try_catch_run, Hs. reflexivity.
Qed.

End Refresh.

Section RefreshClaims.

Import UpstoxInstrument.
Variable rt : Builtins.

Lemma failed_main (ev : download_event) (cache : value) :
  refresh_fails rt ev -> ToBoolean cache = false ->
  exists lines, main rt ev cache = Outcome cache lines (Return tt) /\ reported lines.
Proof.
  intros H Hfalsy. destruct (failed_download rt ev cache H) as (e & line & Hd & Hl).
  unfold main. rewrite try_catch_run, bind_run.
  cbn [read_cache result cache_after printed]. rewrite Hfalsy.
  rewrite bind_run, bind_run. cbn [console_log result cache_after printed].
  rewrite Hd. cbn [result cache_after printed].
  destruct (instanceof_SyntaxError e); (eexists; split; [reflexivity|]);
    (exists line; split; [|exact Hl]); cbn [app]; rewrite !elem_of_cons; auto.
Qed.

(** The failures the handlers keep apart from the cache. Whatever the cache
    holds, a cycle that ends with a network error, a decompression error or
    a text that [JSON.parse] rejects leaves [instrumentCache] exactly as it
    was: the download itself rejects and keeps the cache, and so do [main]
    and the cron callback that run it; a lookup after such a cycle has the
    outcome of the same lookup before it. A payload that [JSON.parse]
    accepts is none of these, whatever it parses to. *)
Lemma failed_refresh_keeps_the_catalog (catalog : value) (ev : download_event) :
  refresh_fails rt ev ->
  (exists e, result (downloadAndPopulateCache rt ev catalog) = Throw e) /\
  cache_after (downloadAndPopulateCache rt ev catalog) = catalog /\
  cache_after (main rt ev catalog) = catalog /\
  cache_after (cron_callback rt ev catalog) = catalog /\
  (forall a sp o,
     getUpstoxOption rt a sp o (cache_after (cron_callback rt ev catalog)) =
     getUpstoxOption rt a sp o catalog).
Proof.
  intros H.
  destruct (failed_download rt ev catalog H) as (e & line & Hd & _).
  destruct (failed_cron_callback rt ev catalog H) as (e' & line' & Hc & _).
  split; [exists e; now rewrite Hd|].
  split; [now rewrite Hd|].
  split; [apply main_read_only; now apply failed_download_read_only|].
  rewrite Hc. cbn [cache_after]. auto.
Qed.

(** A network error, a decompression error or a text that [JSON.parse]
    rejects ends the one download it occurs in, which rejects after printing
    the error on [stderr]. At start-up [main] catches the rejection, prints
    it and returns, and the module body runs to its last statement; in the
    cron callback the [catch] handler prints it and the callback completes.
    In both cases a later lookup has the outcome it had before the cycle. *)
Lemma refresh_errors_stay_in_the_refresh (cache : value) (ev : download_event) :
  refresh_fails rt ev ->
  ((exists e, result (downloadAndPopulateCache rt ev cache) = Throw e) /\
   reported (printed (downloadAndPopulateCache rt ev cache))) /\
  (result (main rt ev cache) = Return tt /\
   reported (printed (main rt ev initial_cache)) /\
   result (startup rt ev initial_cache) = Return tt) /\
  (result (cron_callback rt ev cache) = Return tt /\
   reported (printed (cron_callback rt ev cache))) /\
  (forall a sp o,
     getUpstoxOption rt a sp o (cache_after (main rt ev cache)) =
       getUpstoxOption rt a sp o cache /\
     getUpstoxOption rt a sp o (cache_after (cron_callback rt ev cache)) =
       getUpstoxOption rt a sp o cache).
Proof.
  intros H.
  destruct (failed_download rt ev cache H) as (e & line & Hd & Hl).
  destruct (failed_cron_callback rt ev cache H) as (e' & line' & Hc & Hl').
  destruct (failed_main ev initial_cache H eq_refl) as (lines & Hm & Hrep).
  split; [|split; [|split]].
  - rewrite Hd. cbn [result printed]. split; [eauto|].
    exists line. split; [rewrite !elem_of_cons; auto | exact Hl].
  - split; [|split].
    + destruct (main_never_throws rt ev cache) as [[] Hr]. exact Hr.
    + now rewrite Hm.
    + unfold startup. rewrite bind_run, Hm. cbn [result cache_after printed].
      rewrite bind_run, getUpstoxOption_falsy by reflexivity. reflexivity.
  - rewrite Hc. cbn [result printed]. split; [reflexivity|].
    exists line'. split; [rewrite !elem_of_cons; auto | exact Hl'].
  - intros a sp o. rewrite Hc. cbn [cache_after].
    rewrite (main_read_only rt ev (failed_download_read_only rt ev H) cache). auto.
Qed.

(** C8. When the chunks of a download decompress to a text that
    [JSON.parse] reads as an array of exactly two records, both with asset
    symbol NIFTY, strike price 23300 and instrument type PE, the first
    expiring on 2025-01-02 and the second on 2025-01-09 (whatever else the
    records hold), the download resolves, the cache holds the array, and
    the lookup of (NIFTY, 23300, PE) that follows returns the first
    record. *)
Theorem refresh_then_lookup_returns_nearest_expiry (cache : value) (chunks : list string)
  (first second : gmap string value) :
  JSON_parse rt (String.concat "" chunks) = Return (VArr [VObj first; VObj second]) ->
  first !! "asset_symbol" = Some (VStr "NIFTY") ->
  first !! "strike_price" = Some (VNum (number_of_Z 23300)) ->
  first !! "instrument_type" = Some (VStr "PE") ->
  first !! "expiry" = Some (VStr "2025-01-02") ->
  second !! "asset_symbol" = Some (VStr "NIFTY") ->
  second !! "strike_price" = Some (VNum (number_of_Z 23300)) ->
  second !! "instrument_type" = Some (VStr "PE") ->
  second !! "expiry" = Some (VStr "2025-01-09") ->
  let refreshed := downloadAndPopulateCache rt (gunzip_end chunks) cache in
  result refreshed = Return tt /\
  cache_after refreshed = VArr [VObj first; VObj second] /\
  result (getUpstoxOption rt "NIFTY" (number_of_Z 23300) "PE" (cache_after refreshed)) =
    Return (VObj first) /\
  result ((downloadAndPopulateCache rt (gunzip_end chunks);;
           getUpstoxOption rt "NIFTY" (number_of_Z 23300) "PE") cache) = Return (VObj first).
Proof.
  intros Hparse Ha1 Hs1 Ht1 He1 Ha2 Hs2 Ht2 He2 refreshed.
  assert (Hrun : refreshed =
    Outcome (VArr [VObj first; VObj second])
      [Line stdout "Starting instruments download for in-memory cache..." [];
       Line stdout ("In-memory cache populated with " ++
                    NumberToString rt (number_of_Z 2) ++ " instruments.") []]
      (Return tt)).
  { unfold refreshed, downloadAndPopulateCache. rewrite bind_run.
    cbn [download_start console_log result cache_after printed download_settle].
    unfold on_end. rewrite try_catch_run, bind_run. unfold lift at 1.
    cbn [result cache_after printed]. rewrite Hparse. reflexivity. }
  assert (Hfirst : matches rt "NIFTY" (number_of_Z 23300) "PE" (VObj first) = Return true).
  { unfold matches. rewrite !Get_object, !bind_Return. unfold field.
    rewrite Ha1, Hs1, Ht1. reflexivity. }
  assert (Hsecond : matches rt "NIFTY" (number_of_Z 23300) "PE" (VObj second) = Return true).
  { unfold matches. rewrite !Get_object, !bind_Return. unfold field.
    rewrite Ha2, Hs2, Ht2. reflexivity. }
  assert (Hlookup : result (getUpstoxOption rt "NIFTY" (number_of_Z 23300) "PE"
                      (VArr [VObj first; VObj second])) = Return (VObj first)).
  { rewrite getUpstoxOption_array. cbn [result filter_elements].
    rewrite Hfirst, Hsecond, !bind_Return. cbn [length Nat.eqb reduce1 reduce_from].
    unfold earlier. rewrite !Get_object, !bind_Return. unfold field. rewrite He1, He2.
    reflexivity. }
  unfold refreshed in *. rewrite bind_run, !Hrun. cbn [result cache_after printed].
  rewrite Hlookup. auto.
Qed.

End RefreshClaims.

(** A payload that is the JSON text [null] is none of the three errors:
    [JSON.parse] accepts it. The handler assigns it to the cache and then
    fails to read its [length], so this cycle rejects with the cache set to
    [null]. *)
Remark null_payload_rejects_after_the_assignment (rt : Builtins) (cache : value)
  (chunks : list string) :
  JSON_parse rt (String.concat "" chunks) = Return VNull ->
  cache_after (UpstoxInstrument.downloadAndPopulateCache rt
                 (UpstoxInstrument.gunzip_end chunks) cache) = VNull /\
  exists e, result (UpstoxInstrument.downloadAndPopulateCache rt
                      (UpstoxInstrument.gunzip_end chunks) cache) = Throw e.
Proof.
  intros H. unfold UpstoxInstrument.downloadAndPopulateCache. rewrite bind_run.
  cbn [UpstoxInstrument.download_start console_log result cache_after printed
       UpstoxInstrument.download_settle].
  unfold UpstoxInstrument.on_end. rewrite try_catch_run, bind_run. unfold lift at 1.
  cbn [result cache_after printed]. rewrite H. cbn. eauto.
Qed.

(** Whether it resolves or rejects, a download leaves the cache as it was
    unless [JSON.parse] accepts its payload, and then the cache holds the
    parsed value, also when the log line after the assignment throws. *)
Remark download_writes_the_cache_only_after_parse (rt : Builtins) (cache : value)
  (ev : UpstoxInstrument.download_event) :
  cache_after (UpstoxInstrument.downloadAndPopulateCache rt ev cache) = cache \/
  exists chunks v,
    ev = UpstoxInstrument.gunzip_end chunks /\
    JSON_parse rt (String.concat "" chunks) = Return v /\
    cache_after (UpstoxInstrument.downloadAndPopulateCache rt ev cache) = v.
Proof.
  destruct ev as [err|err|err|chunks]; [now left..|].
  destruct (JSON_parse rt (String.concat "" chunks)) as [v|e] eqn:H.
  - right. exists chunks, v. split; [reflexivity|]. split; [exact H|].
    unfold UpstoxInstrument.downloadAndPopulateCache, UpstoxInstrument.download_start,
      UpstoxInstrument.download_settle, UpstoxInstrument.on_end.
    run_monad. rewrite H. run_monad.
    destruct (Get v "length") as [len|e'']; run_monad; [|reflexivity].
    destruct (ToString rt len) as [shown|e'']; reflexivity.
  - left. apply failed_download_read_only. right. right. cbn. eauto.
Qed.

(** ** The cron job *)

(** C3. The claim fails on the code, for a cycle that fails at the parse
    stage on a payload that is the text [null]. [JSON.parse] returns [null],
    the ['end'] handler assigns it to [instrumentCache] and only then
    throws, on reading [length]; it prints the error under "Error parsing
    JSON data:" and rejects. So the failed cycle has replaced a catalog of
    two records by [null], in the download and in the cron callback that
    runs it, and the lookup that returned a record before the cycle finds
    the cache not populated after it. *)
Theorem null_payload_replaces_the_catalog :
  UpstoxInstrument.downloadAndPopulateCache sample_runtime null_payload (VArr two_records) =
    Outcome VNull
      [Line stdout "Starting instruments download for in-memory cache..." [];
       Line stderr "Error parsing JSON data:" [ArgError length_of_null]]
      (Throw length_of_null) /\
  UpstoxInstrument.cron_callback sample_runtime null_payload (VArr two_records) =
    Outcome VNull
      [Line stdout "Cron job: Starting daily instruments cache update." [];
       Line stdout "Starting instruments download for in-memory cache..." [];
       Line stderr "Error parsing JSON data:" [ArgError length_of_null];
       Line stderr "Daily cache update failed:" [ArgError length_of_null]]
      (Return tt) /\
  result (UpstoxInstrument.getUpstoxOption sample_runtime "NIFTY" (number_of_Z 23300) "PE"
            (VArr two_records)) =
    Return (VObj (record "NIFTY" 23300 "PE" "2025-01-02")) /\
  UpstoxInstrument.getUpstoxOption sample_runtime "NIFTY" (number_of_Z 23300) "PE"
    (cache_after
       (UpstoxInstrument.cron_callback sample_runtime null_payload (VArr two_records))) =
    Outcome VNull
      [Line stderr "Instrument cache is not populated. Please run the download first." []]
      (Return VNull).
Proof. repeat split; vm_compute; reflexivity. Qed.

(** C6. The claim fails on the code, by the assignment that comes before
    any check of the parsed payload. A cron cycle over a catalog of two
    records whose payload is the text [null] is caught and reported, and
    still reaches the callers of the lookup, which find the cache not
    populated where they found a record. At start-up, a payload that is the
    text of the empty object is no error for the download: it resolves with
    nothing on [stderr] and the object in the cache, on which every lookup
    throws; [main] catches the throw of its own lookup, and the lookup of
    the module body that follows [await main()] throws out of the module. *)
Theorem malformed_payload_reaches_the_lookups :
  (result (UpstoxInstrument.cron_callback sample_runtime null_payload (VArr two_records)) =
     Return tt /\
   reported
     (printed (UpstoxInstrument.cron_callback sample_runtime null_payload (VArr two_records))) /\
   result (UpstoxInstrument.getUpstoxOption sample_runtime "NIFTY" (number_of_Z 23300) "PE"
             (VArr two_records)) =
     Return (VObj (record "NIFTY" 23300 "PE" "2025-01-02")) /\
   UpstoxInstrument.getUpstoxOption sample_runtime "NIFTY" (number_of_Z 23300) "PE"
     (cache_after
        (UpstoxInstrument.cron_callback sample_runtime null_payload (VArr two_records))) =
     Outcome VNull
       [Line stderr "Instrument cache is not populated. Please run the download first." []]
       (Return VNull)) /\
  (UpstoxInstrument.downloadAndPopulateCache object_runtime object_payload
     UpstoxInstrument.initial_cache =
     Outcome (VObj ∅)
       [Line stdout "Starting instruments download for in-memory cache..." [];
        Line stdout "In-memory cache populated with undefined instruments." []]
       (Return tt) /\
   ~ reported
       (printed (UpstoxInstrument.downloadAndPopulateCache object_runtime object_payload
                   UpstoxInstrument.initial_cache)) /\
   (forall a sp o,
      result (UpstoxInstrument.getUpstoxOption object_runtime a sp o
                (cache_after
                   (UpstoxInstrument.downloadAndPopulateCache object_runtime object_payload
                      UpstoxInstrument.initial_cache))) =
      Throw (TypeError "filter is not a function")) /\
   UpstoxInstrument.main object_runtime object_payload UpstoxInstrument.initial_cache =
     Outcome (VObj ∅)
       [Line stdout "In-memory cache is empty, populating for the first time..." [];
        Line stdout "Starting instruments download for in-memory cache..." [];
        Line stdout "In-memory cache populated with undefined instruments." [];
        Line stdout (nl ++ "--- Example Lookup ---") [];
        Line stderr "An unexpected error occurred during initialization:"
          [ArgText "filter is not a function"]]
       (Return tt) /\
   result (UpstoxInstrument.startup object_runtime object_payload
             UpstoxInstrument.initial_cache) =
     Throw (TypeError "filter is not a function")).
Proof.
  assert (Hd : UpstoxInstrument.downloadAndPopulateCache object_runtime object_payload
                 UpstoxInstrument.initial_cache =
               Outcome (VObj ∅)
                 [Line stdout "Starting instruments download for in-memory cache..." [];
                  Line stdout "In-memory cache populated with undefined instruments." []]
                 (Return tt)) by (vm_compute; reflexivity).
  split; [|split; [exact Hd|rewrite Hd; cbn [printed cache_after]; split; [|split; [|split]]]].
  - split; [vm_compute; reflexivity|]. split; [|split; vm_compute; reflexivity].
    exists (Line stderr "Daily cache update failed:" [ArgError length_of_null]).
    split; [|reflexivity].
    replace (printed (UpstoxInstrument.cron_callback sample_runtime null_payload
                        (VArr two_records)))
      with [Line stdout "Cron job: Starting daily instruments cache update." [];
            Line stdout "Starting instruments download for in-memory cache..." [];
            Line stderr "Error parsing JSON data:" [ArgError length_of_null];
            Line stderr "Daily cache update failed:" [ArgError length_of_null]]
      by (vm_compute; reflexivity).
    rewrite !elem_of_cons. do 3 right. left. reflexivity.
  - intros (l & Hin & Hs). rewrite !elem_of_cons, elem_of_nil in Hin.
    destruct Hin as [->|[->|[]]]; discriminate.
  - reflexivity.
  - vm_compute. reflexivity.
  - vm_compute. reflexivity.
Qed.

Section SchedulerClaims.

Import UpstoxInstrument Scheduler.
Variable rt : Builtins.

Lemma cron_settle_parsed (cache v : value) (chunks : list string) :
  JSON_parse rt (String.concat "" chunks) = Return v ->
  cache_after (cron_settle rt (gunzip_end chunks) cache) = v.
Proof.
  intros H. unfold cron_settle, download_settle, on_end. run_monad.
  rewrite H. run_monad.
  destruct (Get v "length") as [len|e]; run_monad; [|reflexivity].
  destruct (ToString rt len) as [shown|e]; reflexivity.
Qed.

(** C5, as amended. The cron callback has no guard: every tick starts a new
    refresh cycle, also while earlier cycles are still running, so the
    cycles in flight grow by one with each tick; the tick itself leaves the
    cache as it is, and each cycle in flight whose payload [JSON.parse]
    accepts replaces the cache when its download ends, whatever other cycles
    are running. *)
Theorem every_tick_starts_a_cycle (s : state) :
  running (step rt s cron_tick) = (running s ++ [started s])%list /\
  instrumentCache (step rt s cron_tick) = instrumentCache s /\
  (forall id chunks v,
     is_running id s = true ->
     JSON_parse rt (String.concat "" chunks) = Return v ->
     instrumentCache (step rt s (download_done id (gunzip_end chunks))) = v).
Proof.
  split; [reflexivity|]. split; [reflexivity|].
  intros id chunks v Hid Hparse. cbn [step]. rewrite Hid. cbn [run instrumentCache].
  now apply cron_settle_parsed.
Qed.

End SchedulerClaims.

(** ** The Upstox positions *)

Section ServiceClaims.

Import UpstoxService.
Variable rt : Builtins.

(** C10. [getTodaysPnL] returns the number 0 when the positions request
    fails, whatever the error, and returns the same number 0 when the
    response holds an empty list of positions; whatever the request gives,
    it completes with a number and never throws. *)
Theorem getTodaysPnL_zero_on_failure_and_on_no_positions (token cache : value) :
  (forall err, result (getTodaysPnL rt token (failed err) cache) = Return (VNum zero)) /\
  (forall rest : gmap string value,
     result (getTodaysPnL rt token (responded (VObj (<["data" := VArr []]> rest))) cache) =
     Return (VNum zero)) /\
  (forall req, exists n, result (getTodaysPnL rt token req cache) = Return (VNum n)).
Proof.
  split; [|split].
  - intros err. unfold getTodaysPnL, await_get. run_monad.
    destruct (ToString rt token); reflexivity.
  - intros rest. unfold getTodaysPnL, await_get. run_monad.
    destruct (ToString rt token); [|reflexivity].
    cbn [OptionalGet]. rewrite Get_object. unfold field. rewrite lookup_insert_eq.
    reflexivity.
  - intros req. unfold getTodaysPnL. run_monad.
    destruct (ToString rt token); [|eauto].
    destruct (await_get req) as [data|e]; [|eauto].
    destruct (OptionalGet data "data") as [inner|e]; [|eauto].
    destruct (Get _ "length") as [len|e]; [|eauto].
    destruct (strict_equals_number len zero); [eauto|].
    destruct (call_reduce _ _ _) as [total|e]; eauto.
Qed.

End ServiceClaims.

(** ** The theorems at concrete inputs *)

Section Evaluation.

Import UpstoxInstrument Scheduler UpstoxService.

(** Of three matching records [A], [B], [C], where [A] and [C] expire first
    and on the same day, the lookup returns [A]. *)
Example lookup_breaks_ties_by_catalog_order :
  result (getUpstoxOption sample_runtime "NIFTY" (number_of_Z 23300) "PE" (VArr tie_records)) =
  Return (tagged "A" (record "NIFTY" 23300 "PE" "2025-01-01")).
Proof. vm_compute. reflexivity. Qed.

(** With time stamps for expiries the lookup returns the record of the
    smaller one, here the second of the catalog. *)
Example lookup_compares_time_stamps :
  result (getUpstoxOption sample_runtime "NIFTY" (number_of_Z 23300) "PE"
            (VArr stamped_records)) =
  Return (stamped 1735842599000).
Proof. vm_compute. reflexivity. Qed.

Lemma getUpstoxOption_earliest_expiry_witness :
  filter_elements (matches sample_runtime "nifty" (number_of_Z 23300) "pe") tie_records = Return tie_records /\
  comparable_expiries tie_records /\
  (tie_records = [] ->
   result (getUpstoxOption sample_runtime "nifty" (number_of_Z 23300) "pe" (VArr tie_records)) =
   Return VNull) /\
  (tie_records <> [] ->
   exists r before after,
     result (getUpstoxOption sample_runtime "nifty" (number_of_Z 23300) "pe" (VArr tie_records)) =
       Return r /\
     tie_records = (before ++ r :: after)%list /\
     is_match sample_runtime "nifty" (number_of_Z 23300) "pe" r /\
     (forall x, x ∈ tie_records -> is_match sample_runtime "nifty" (number_of_Z 23300) "pe" x ->
        less_than sample_runtime (expiry_of x) (expiry_of r) = Return false) /\
     (forall x, x ∈ before -> is_match sample_runtime "nifty" (number_of_Z 23300) "pe" x ->
        less_than sample_runtime (expiry_of r) (expiry_of x) = Return true)).
Proof.
  assert (H1 : filter_elements (matches sample_runtime "nifty" (number_of_Z 23300) "pe") tie_records =
               Return tie_records) by (vm_compute; reflexivity).
  assert (H2 : comparable_expiries tie_records).
  { right. repeat constructor; eexists; vm_compute; reflexivity. }
  split; [exact H1|]. split; [exact H2|].
  exact (getUpstoxOption_earliest_expiry sample_runtime "nifty" (number_of_Z 23300) "pe"
           tie_records tie_records H1 H2).
Defined.

(** C2, the claim as stated fails: before any refresh, the lookup of
    (NIFTY, 24000, CE) returns [null], and on the populated catalog of two
    records, none of which matches, it returns [null] as well. *)
Lemma not_ready_and_no_match_return_the_same_value :
  result (getUpstoxOption sample_runtime "NIFTY" (number_of_Z 24000) "CE" initial_cache) =
  result (getUpstoxOption sample_runtime "NIFTY" (number_of_Z 24000) "CE" (VArr two_records)).
Proof. vm_compute. reflexivity. Qed.

Lemma not_ready_returns_null_like_no_match_witness :
  filter_elements (matches sample_runtime "NIFTY" (number_of_Z 24000) "CE") two_records = Return [] /\
  result (getUpstoxOption sample_runtime "NIFTY" (number_of_Z 24000) "CE" initial_cache) =
    Return VNull /\
  result (getUpstoxOption sample_runtime "NIFTY" (number_of_Z 24000) "CE" (VArr two_records)) =
    Return VNull /\
  printed (getUpstoxOption sample_runtime "NIFTY" (number_of_Z 24000) "CE" initial_cache) =
    [Line stderr "Instrument cache is not populated. Please run the download first." []] /\
  printed (getUpstoxOption sample_runtime "NIFTY" (number_of_Z 24000) "CE" (VArr two_records)) =
    [].
Proof.
  assert (H : filter_elements (matches sample_runtime "NIFTY" (number_of_Z 24000) "CE") two_records =
              Return []) by (vm_compute; reflexivity).
  split; [exact H|].
  exact (not_ready_returns_null_like_no_match sample_runtime "NIFTY" (number_of_Z 24000) "CE"
           two_records H).
Defined.

Lemma broken_payload_fails : refresh_fails sample_runtime (gunzip_end ["[{'asset_"; "symbol'"]).
Proof. right. right. eexists. vm_compute. reflexivity. Defined.

Lemma failed_refresh_keeps_the_catalog_witness :
  refresh_fails sample_runtime (gunzip_end ["[{'asset_"; "symbol'"]) /\
  (exists e, result (downloadAndPopulateCache sample_runtime (gunzip_end ["[{'asset_"; "symbol'"])
                       (VArr two_records)) = Throw e) /\
  cache_after (downloadAndPopulateCache sample_runtime (gunzip_end ["[{'asset_"; "symbol'"])
                 (VArr two_records)) = VArr two_records /\
  cache_after (main sample_runtime (gunzip_end ["[{'asset_"; "symbol'"]) (VArr two_records)) =
    VArr two_records /\
  cache_after (cron_callback sample_runtime (gunzip_end ["[{'asset_"; "symbol'"])
                 (VArr two_records)) = VArr two_records /\
  (forall a sp o,
     getUpstoxOption sample_runtime a sp o
       (cache_after (cron_callback sample_runtime (gunzip_end ["[{'asset_"; "symbol'"])
                       (VArr two_records))) =
     getUpstoxOption sample_runtime a sp o (VArr two_records)).
Proof.
  split; [exact broken_payload_fails|].
  exact (failed_refresh_keeps_the_catalog sample_runtime (VArr two_records)
           (gunzip_end ["[{'asset_"; "symbol'"]) broken_payload_fails).
Defined.

Lemma filter_keeps_exactly_the_matches_witness :
  call_filter (VArr tie_records) (matches sample_runtime "nifty" (number_of_Z 23300) "PE") =
    Return tie_records /\
  (forall r, r ∈ tie_records <->
     r ∈ tie_records /\ is_match sample_runtime "nifty" (number_of_Z 23300) "PE" r) /\
  (same_upper_case sample_runtime "Nifty" "nifty" <-> equal_up_to_case "Nifty" "nifty") /\
  matches sample_runtime "nifty" (number_of_Z 23300) "PE"
    (VObj (record "NIFTY" 23300 "pe" "2025-01-02")) = Return true.
Proof.
  assert (H : call_filter (VArr tie_records)
                (matches sample_runtime "nifty" (number_of_Z 23300) "PE") =
              Return tie_records) by (vm_compute; reflexivity).
  split; [exact H|].
  destruct (filter_keeps_exactly_the_matches sample_runtime "nifty" (number_of_Z 23300) "PE"
              tie_records tie_records H) as (Hiff & _ & Hascii & Hcase).
  split; [exact Hiff|]. split; [apply Hascii; reflexivity|].
  apply (Hcase (number_of_Z 23300) (record "NIFTY" 23300 "pe" "2025-01-02"));
    vm_compute; reflexivity.
Defined.

(** The letters outside ASCII count as the runtime maps them: where it maps
    [e_acute] to [E_acute], the callback accepts a record of the symbol
    caf[e_acute] for the query CAF[E_acute], two strings that differ in more
    than the case of their ASCII letters. *)
Example callback_maps_the_letters_outside_ASCII :
  matches sample_runtime ("CAF" ++ E_acute) (number_of_Z 23300) "PE"
    (VObj (record ("caf" ++ e_acute) 23300 "pe" "2025-01-02")) = Return true /\
  ~ equal_up_to_case ("caf" ++ e_acute) ("CAF" ++ E_acute).
Proof.
  split; [vm_compute; reflexivity|].
  intros H. cbn in H.
  do 4 (inversion H as [|? ? ? ? _ H']; subst; clear H; rename H' into H).
  inversion H as [|? ? ? ? Hc _]; subst; clear H.
  unfold same_letter, lower_case in Hc. vm_compute in Hc.
  destruct Hc as [Hc|[[[_ Hc] _]|[_ Hc]]]; [discriminate|now apply Hc|discriminate].
Qed.

(** C5, the claim as stated fails: a tick while the cycle of the previous
    tick is still running is no no-op, it puts a second cycle in flight;
    and when the second cycle ends first, with two records, and the first
    one ends after it, with an empty array, the cache ends up empty. *)
Lemma second_tick_starts_a_second_cycle :
  running (steps sample_runtime (idle VNull) [cron_tick]) = [0] /\
  running (steps sample_runtime (idle VNull) [cron_tick; cron_tick]) = [0; 1] /\
  step sample_runtime (steps sample_runtime (idle VNull) [cron_tick]) cron_tick <>
    steps sample_runtime (idle VNull) [cron_tick] /\
  instrumentCache
    (steps sample_runtime (idle VNull)
       [cron_tick; cron_tick;
        download_done 1 (gunzip_end two_records_chunks);
        download_done 0 (gunzip_end ["[]"])]) = VArr [].
Proof.
  split; [reflexivity|]. split; [reflexivity|]. split; [|vm_compute; reflexivity].
  intros H. apply (f_equal running) in H. vm_compute in H. discriminate.
Qed.

Lemma every_tick_starts_a_cycle_witness :
  is_running 0 (steps sample_runtime (idle VNull) [cron_tick; cron_tick]) = true /\
  JSON_parse sample_runtime (String.concat "" two_records_chunks) = Return (VArr two_records) /\
  instrumentCache
    (step sample_runtime (steps sample_runtime (idle VNull) [cron_tick; cron_tick])
       (download_done 0 (gunzip_end two_records_chunks))) = VArr two_records.
Proof.
  assert (H1 : is_running 0 (steps sample_runtime (idle VNull) [cron_tick; cron_tick]) = true)
    by reflexivity.
  assert (H2 : JSON_parse sample_runtime (String.concat "" two_records_chunks) =
               Return (VArr two_records)) by (vm_compute; reflexivity).
  split; [exact H1|]. split; [exact H2|].
  exact (proj2 (proj2 (every_tick_starts_a_cycle sample_runtime
                         (steps sample_runtime (idle VNull) [cron_tick; cron_tick])))
           0 two_records_chunks (VArr two_records) H1 H2).
Defined.

Lemma refresh_errors_stay_in_the_refresh_witness :
  refresh_fails sample_runtime (gunzip_error (ZlibError "unexpected end of file")) /\
  result (main sample_runtime (gunzip_error (ZlibError "unexpected end of file")) VNull) =
    Return tt /\
  result (startup sample_runtime (gunzip_error (ZlibError "unexpected end of file"))
            initial_cache) = Return tt /\
  result (cron_callback sample_runtime (gunzip_error (ZlibError "unexpected end of file"))
            VNull) = Return tt.
Proof.
  assert (H : refresh_fails sample_runtime (gunzip_error (ZlibError "unexpected end of file")))
    by (right; left; exact I).
  split; [exact H|].
  destruct (refresh_errors_stay_in_the_refresh sample_runtime VNull
              (gunzip_error (ZlibError "unexpected end of file")) H)
    as (_ & (Hmain & _ & Hstartup) & (Hcron & _) & _).
  auto.
Defined.

Lemma refresh_then_lookup_returns_nearest_expiry_witness :
  JSON_parse sample_runtime (String.concat "" two_records_chunks) = Return (VArr two_records) /\
  result (downloadAndPopulateCache sample_runtime (gunzip_end two_records_chunks) VNull) =
    Return tt /\
  cache_after (downloadAndPopulateCache sample_runtime (gunzip_end two_records_chunks) VNull) =
    VArr two_records /\
  result (getUpstoxOption sample_runtime "NIFTY" (number_of_Z 23300) "PE"
            (cache_after (downloadAndPopulateCache sample_runtime
                            (gunzip_end two_records_chunks) VNull))) =
    Return (VObj (record "NIFTY" 23300 "PE" "2025-01-02")) /\
  result ((downloadAndPopulateCache sample_runtime (gunzip_end two_records_chunks);;
           getUpstoxOption sample_runtime "NIFTY" (number_of_Z 23300) "PE") VNull) =
    Return (VObj (record "NIFTY" 23300 "PE" "2025-01-02")).
Proof.
  assert (H : JSON_parse sample_runtime (String.concat "" two_records_chunks) =
              Return (VArr two_records)) by (vm_compute; reflexivity).
  split; [exact H|].
  apply (refresh_then_lookup_returns_nearest_expiry sample_runtime VNull two_records_chunks
           (record "NIFTY" 23300 "PE" "2025-01-02") (record "NIFTY" 23300 "PE" "2025-01-09") H);
    vm_compute; reflexivity.
Defined.

Lemma missing_string_fields_are_skipped_witness :
  absent (field "asset_symbol" (VObj nameless_record)) /\
  matches sample_runtime "NIFTY" (number_of_Z 23300) "PE" (VObj nameless_record) = Return false /\
  result (getUpstoxOption sample_runtime "NIFTY" (number_of_Z 23300) "PE"
            (VArr ([] ++ VObj nameless_record :: two_records))) =
    result (getUpstoxOption sample_runtime "NIFTY" (number_of_Z 23300) "PE"
              (VArr ([] ++ two_records))) /\
  result (getUpstoxOption sample_runtime "NIFTY" (number_of_Z 23300) "PE"
            (VArr ([] ++ VObj nameless_record :: two_records))) <>
    Return (VObj nameless_record).
Proof.
  assert (H : absent (field "asset_symbol" (VObj nameless_record))) by (left; reflexivity).
  split; [exact H|].
  exact (missing_string_fields_are_skipped sample_runtime "NIFTY" (number_of_Z 23300) "PE"
           nameless_record [] two_records (or_introl H) (or_introl H)).
Defined.

(** The record without an asset symbol expires before the two others and
    has their strike price and option type, and still the first of the two
    is returned. *)
Example nameless_record_is_not_selected :
  result (getUpstoxOption sample_runtime "NIFTY" (number_of_Z 23300) "PE"
            (VArr (VObj nameless_record :: two_records))) =
  Return (VObj (record "NIFTY" 23300 "PE" "2025-01-02")).
Proof. vm_compute. reflexivity. Qed.

(** The positions request fails, or the account has no positions: 0 both
    times. A position whose [pnl] is missing counts as 0 as well. *)
Example getTodaysPnL_failed_request :
  result (getTodaysPnL sample_runtime (VStr "token")
            (failed (AxiosError "Request failed with status code 401" None)) VNull) =
  Return (VNum zero).
Proof. reflexivity. Qed.

Example getTodaysPnL_no_positions :
  result (getTodaysPnL sample_runtime (VStr "token")
            (responded (VObj (<["status" := VStr "success"]> (<["data" := VArr []]> ∅)))) VNull) =
  Return (VNum zero).
Proof. vm_compute. reflexivity. Qed.

End Evaluation.

(** * More of the instrument cache *)

Section MoreLookup.

Import UpstoxInstrument.
Variable rt : Builtins.

(** The lookup, on any cache. *)
Lemma getUpstoxOption_run (a : string) (sp : number) (o : string) (cache : value) :
  getUpstoxOption rt a sp o cache =
  if ToBoolean cache then
    Outcome cache []
      (matching ← call_filter cache (matches rt a sp o);
       if (length matching =? 0)%nat then Return VNull else reduce1 (earlier rt) matching)
  else
    Outcome cache
      [Line stderr "Instrument cache is not populated. Please run the download first." []]
      (Return VNull).
Proof.
  destruct (ToBoolean cache) eqn:H; [|now apply getUpstoxOption_falsy].
  unfold getUpstoxOption.
  cbv [mbind M_bind mret M_ret read_cache lift cache_after printed result]. rewrite H.
  cbv [negb]. destruct (call_filter cache (matches rt a sp o)) as [matching|e]; [|reflexivity].
  cbv [completion_bind]. destruct (length matching =? 0)%nat; reflexivity.
Qed.

Lemma earlier_picks_one (x y r : value) :
  earlier rt x y = Return r -> r = x \/ r = y.
Proof.
  unfold earlier.
  destruct (Get y "expiry"); [|discriminate]. rewrite bind_Return.
  destruct (Get x "expiry"); [|discriminate]. rewrite bind_Return.
  destruct (less_than rt _ _) as [[]|]; [| |discriminate];
    rewrite bind_Return; intros H; injection H as <-; auto.
Qed.

Lemma reduce_from_earlier_elem_of (l : list value) (acc r : value) :
  reduce_from (earlier rt) acc l = Return r -> r ∈ acc :: l.
Proof.
  revert acc. induction l as [|c l IH]; intros acc H; cbn [reduce_from] in H.
  - injection H as ->. apply list_elem_of_here.
  - destruct (earlier rt acc c) as [acc'|e] eqn:He; [|discriminate].
    rewrite bind_Return in H. apply IH in H.
    apply earlier_picks_one in He.
    rewrite !elem_of_cons in *. destruct H as [->|H]; [destruct He; auto | auto].
Qed.

Lemma matches_throws_TypeError (a : string) (sp : number) (o : string) (r : value) (e : error) :
  matches rt a sp o r = Throw e -> exists text, e = TypeError text.
Proof.
  unfold matches.
  destruct (Get r "asset_symbol") as [s|e'] eqn:Hs.
  2:{ destruct r; cbn in Hs; try discriminate;
      try (destruct (String.eqb _ _); discriminate);
      injection Hs as <-; rewrite bind_Throw; intros H; injection H as <-; eauto. }
  rewrite bind_Return.
  destruct s; cbn [optional_toUpperCase mbind completion_bind strict_equals_string];
    try discriminate; try (intros H; injection H as <-; eauto).
  destruct (String.eqb _ _); [|discriminate].
  destruct (Get r "strike_price") as [k|e'] eqn:Hk.
  2:{ destruct r; cbn in Hk; try discriminate;
      try (destruct (String.eqb _ _); discriminate); cbn in Hs; discriminate. }
  cbn [mbind completion_bind]. destruct (strict_equals_number k sp); [|discriminate].
  destruct (Get r "instrument_type") as [t|e'] eqn:Ht.
  2:{ destruct r; cbn in Ht; try discriminate;
      try (destruct (String.eqb _ _); discriminate); cbn in Hs; discriminate. }
  cbn [mbind completion_bind].
  destruct t; cbn [optional_toUpperCase mbind completion_bind]; try discriminate;
    intros H; injection H as <-; eauto.
Qed.

Lemma filter_elements_throws (callback : value -> completion bool) (l : list value)
  (x : value) (e : error) :
  x ∈ l -> callback x = Throw e ->
  exists y e', y ∈ l /\ callback y = Throw e' /\ filter_elements callback l = Throw e'.
Proof.
  induction l as [|y l IH]; intros Hx He; [now apply elem_of_nil in Hx|].
  cbn [filter_elements]. destruct (callback y) as [keep|e'] eqn:Hy.
  - apply elem_of_cons in Hx as [->|Hx]; [congruence|].
    destruct (IH Hx He) as (z & e'' & Hz & Hcz & Hf).
    exists z, e''. rewrite bind_Return, Hf. split; [now apply list_elem_of_further|]. auto.
  - exists y, e'. split; [apply list_elem_of_here|]. auto.
Qed.

Lemma filter_elements_ext (f g : value -> completion bool) (l : list value) :
  (forall x, f x = g x) -> filter_elements f l = filter_elements g l.
Proof. intros H. induction l as [|x l IH]; cbn [filter_elements]; [|rewrite H, IH]; reflexivity. Qed.

(** The lookup returns [null] or a record of the cached array that matches
    the query, whatever the expiries are. *)
Theorem lookup_returns_null_or_a_match (a : string) (sp : number) (o : string)
  (cache r : value) :
  result (getUpstoxOption rt a sp o cache) = Return r ->
  r = VNull \/
  exists catalog, cache = VArr catalog /\ r ∈ catalog /\ is_match rt a sp o r.
Proof.
  rewrite getUpstoxOption_run.
  destruct (ToBoolean cache); cbn [result]; [|intros H; injection H as <-; now left].
  destruct (call_filter cache (matches rt a sp o)) as [matching|e] eqn:Hf; [|discriminate].
  rewrite bind_Return.
  destruct cache as [| | | | |catalog|]; try discriminate. cbn [call_filter] in Hf.
  destruct matching as [|y l]; cbn [length Nat.eqb reduce1].
  - intros H. injection H as <-. now left.
  - intros H. right. exists catalog. split; [reflexivity|].
    apply reduce_from_earlier_elem_of in H.
    apply (filter_elements_elem_of _ _ _ Hf) in H as [Hin Hm].
    split; [exact Hin | now apply matches_true_iff].
Qed.

(** When the filter completes, the lookup returns [null] exactly when no
    record of the catalog matches the query. *)
Theorem lookup_returns_null_iff_nothing_matches (a : string) (sp : number) (o : string)
  (catalog matching : list value) :
  filter_elements (matches rt a sp o) catalog = Return matching ->
  result (getUpstoxOption rt a sp o (VArr catalog)) = Return VNull <->
  (forall r, r ∈ catalog -> ~ is_match rt a sp o r).
Proof.
  intros Hf. rewrite getUpstoxOption_array, Hf, bind_Return. cbn [result].
  destruct matching as [|y l]; cbn [length Nat.eqb reduce1].
  - split; [|reflexivity]. intros _ r Hr Hm.
    assert (H : r ∈ []) by (apply (filter_elements_elem_of _ _ _ Hf); split;
      [exact Hr | now apply matches_true_iff]).
    now apply elem_of_nil in H.
  - split.
    + intros H. apply reduce_from_earlier_elem_of in H.
      apply (filter_elements_elem_of _ _ _ Hf) in H as [_ Hm]. discriminate.
    + intros H. exfalso.
      assert (Hy : y ∈ y :: l) by apply list_elem_of_here.
      apply (filter_elements_elem_of _ _ _ Hf) in Hy as [Hin Hm].
      apply (H y Hin). now apply matches_true_iff.
Qed.

Lemma matches_unreadable (a : string) (sp : number) (o : string) (r : value) :
  unreadable r -> exists e, matches rt a sp o r = Throw e.
Proof.
  intros [->|[->|[Habs Hstr]]]; [eexists; reflexivity..|].
  unfold matches.
  destruct r as [| |b|n|s|l|m]; cbn [field] in Habs, Hstr;
    try (exfalso; apply Habs; left; reflexivity).
  rewrite !Get_object, bind_Return. cbn [field].
  destruct (default VUndefined (m !! "asset_symbol")) as [| |b|n|s|l|m'];
    try (exfalso; apply Habs; unfold absent; auto; fail);
    try (exfalso; apply Hstr; eexists; reflexivity);
    eexists; reflexivity.
Qed.

(** One unreadable entry in the cached array makes every lookup throw a
    [TypeError], whatever the query and wherever the entry is. *)
Theorem unreadable_entry_makes_every_lookup_throw (a : string) (sp : number) (o : string)
  (catalog : list value) (r : value) :
  r ∈ catalog -> unreadable r ->
  exists text, result (getUpstoxOption rt a sp o (VArr catalog)) = Throw (TypeError text).
Proof.
  intros Hin Hr. destruct (matches_unreadable a sp o r Hr) as [e He].
  destruct (filter_elements_throws _ _ _ _ Hin He) as (y & e' & _ & Hy & Hf).
  destruct (matches_throws_TypeError _ _ _ _ _ Hy) as [text ->].
  exists text. rewrite getUpstoxOption_array, Hf. reflexivity.
Qed.

(** Two queries that differ in the letter case of the asset symbol and of
    the option type only have the same outcome on every cache. *)
Theorem lookup_ignores_the_case_of_the_query (a a' : string) (sp : number) (o o' : string)
  (cache : value) :
  equal_up_to_case a a' -> equal_up_to_case o o' ->
  getUpstoxOption rt a sp o cache = getUpstoxOption rt a' sp o' cache.
Proof.
  intros Ha Ho. apply (equal_up_to_case_same_upper_case rt) in Ha, Ho.
  unfold same_upper_case in Ha, Ho.
  rewrite !getUpstoxOption_run.
  assert (Hm : forall r, matches rt a sp o r = matches rt a' sp o' r).
  { intros r. unfold matches. now rewrite Ha, Ho. }
  destruct (ToBoolean cache); [|reflexivity].
  destruct cache; try reflexivity. cbn [call_filter].
  now rewrite (filter_elements_ext _ _ _ Hm).
Qed.

(** A record the callback returns [false] on, such as a record of another
    symbol, strike or option type, has no influence on the lookup: with or
    without it the lookup completes the same way. *)
Theorem lookup_is_not_affected_by_other_records (a : string) (sp : number) (o : string)
  (before after : list value) (r : value) :
  matches rt a sp o r = Return false ->
  result (getUpstoxOption rt a sp o (VArr (before ++ r :: after))) =
  result (getUpstoxOption rt a sp o (VArr (before ++ after))).
Proof.
  intros Hr. rewrite !getUpstoxOption_array. cbn [result].
  rewrite !filter_elements_app. cbn [filter_elements]. rewrite Hr, bind_Return.
  destruct (filter_elements (matches rt a sp o) before) as [k1|e]; [|reflexivity].
  rewrite !bind_Return.
  destruct (filter_elements (matches rt a sp o) after) as [k2|e]; reflexivity.
Qed.

End MoreLookup.

Section MoreRefresh.

Import UpstoxInstrument Scheduler.
Variable rt : Builtins.

(** A download whose payload [JSON.parse] reads as an array resolves, puts
    the array in the place of whatever the cache held, and prints the
    number of its elements. *)
Theorem parsed_array_replaces_the_cache (cache : value) (chunks : list string)
  (catalog : list value) :
  JSON_parse rt (String.concat "" chunks) = Return (VArr catalog) ->
  downloadAndPopulateCache rt (gunzip_end chunks) cache =
  Outcome (VArr catalog)
    [Line stdout "Starting instruments download for in-memory cache..." [];
     Line stdout
       ("In-memory cache populated with " ++
        NumberToString rt (number_of_Z (Z.of_nat (length catalog))) ++ " instruments.") []]
    (Return tt).
Proof.
  intros H. unfold downloadAndPopulateCache, download_start, download_settle, on_end.
  run_monad. rewrite H. reflexivity.
Qed.

(** When the cache is populated, [main] does not download: its outcome
    does not depend on how a download would end, and the cache stays. *)
Theorem main_skips_the_download_when_populated (cache : value) (ev ev' : download_event) :
  ToBoolean cache = true ->
  main rt ev cache = main rt ev' cache /\ cache_after (main rt ev cache) = cache.
Proof.
  intros H.
  assert (Hev : forall ev1 ev2, main rt ev1 cache = main rt ev2 cache).
  { intros ev1 ev2. unfold main. rewrite !try_catch_run, !bind_run.
    cbn [read_cache result cache_after printed]. rewrite H. reflexivity. }
  split; [apply Hev|].
  rewrite (Hev ev (get_rejected (StreamError ""))).
  apply main_read_only, failed_download_read_only. left. exact I.
Qed.

(** Neither [main] nor the cron callback ever throws, whatever the cache
    holds and however the download ends: a failed download, and in [main] a
    lookup that throws as well, end in a line on the console. *)
Theorem main_and_cron_callback_never_throw (cache : value) (ev : download_event) :
  result (main rt ev cache) = Return tt /\ result (cron_callback rt ev cache) = Return tt.
Proof.
  destruct (main_never_throws rt ev cache) as [[] Hm].
  destruct (cron_callback_never_throws rt ev cache) as [[] Hc].
  auto.
Qed.

(** A payload that parses to a falsy value other than [null] (the number
    0, the empty string, [false]) is stored by a download that resolves, and
    the lookups after it still find the cache not populated. *)
Theorem falsy_payload_leaves_the_cache_unpopulated (cache v : value) (chunks : list string)
  (a : string) (sp : number) (o : string) :
  JSON_parse rt (String.concat "" chunks) = Return v ->
  ToBoolean v = false -> v <> VNull -> v <> VUndefined ->
  result (downloadAndPopulateCache rt (gunzip_end chunks) cache) = Return tt /\
  cache_after (downloadAndPopulateCache rt (gunzip_end chunks) cache) = v /\
  getUpstoxOption rt a sp o v =
    Outcome v
      [Line stderr "Instrument cache is not populated. Please run the download first." []]
      (Return VNull).
Proof.
  intros H Hfalsy Hnull Hundef.
  split; [|split; [|now apply getUpstoxOption_falsy]].
  - unfold downloadAndPopulateCache, download_start, download_settle, on_end.
    run_monad. rewrite H.
    destruct v as [| |b|n|s|l|m]; try congruence; try discriminate; cbn;
      try (destruct (String.eqb _ _)); reflexivity.
  - unfold downloadAndPopulateCache, download_start, download_settle, on_end.
    run_monad. rewrite H.
    destruct v as [| |b|n|s|l|m]; try congruence; try discriminate; cbn;
      try (destruct (String.eqb _ _)); reflexivity.
Qed.

Lemma failed_cron_settle (ev : download_event) (cache : value) :
  refresh_fails rt ev -> cache_after (cron_settle rt ev cache) = cache.
Proof.
  intros H. destruct (failed_download_settle rt ev cache H) as (e & line & Hs & _).
  unfold cron_settle. rewrite try_catch_run, Hs. reflexivity.
Qed.

(** Ticks and downloads that end in one of the three errors, in any number
    and any order, never change the cache. *)
Theorem ticks_and_failures_keep_the_cache (events : list event) (s : state) :
  Forall (tick_or_failure rt) events ->
  instrumentCache (steps rt s events) = instrumentCache s.
Proof.
  revert s. induction events as [|e events IH]; intros s H; [reflexivity|].
  apply Forall_cons_1 in H as [He H]. cbn [steps fold_left].
  change (instrumentCache (steps rt (step rt s e) events) = instrumentCache s).
  rewrite IH by exact H.
  destruct e as [|id ev]; [reflexivity|]. cbn [step].
  destruct (is_running id s); [|reflexivity].
  cbn [run instrumentCache]. now apply failed_cron_settle.
Qed.

End MoreRefresh.

(** * The service functions *)

(** Steps of a computation in [M] that starts with a pure call. *)
Section Steps.

Context {A B : Type}.

Lemma bind_lift_Return (a : A) (f : A -> M B) (cache : value) :
  (lift (Return a) ≫= f) cache = f a cache.
Proof. rewrite bind_run. cbn [lift result cache_after printed app]. now destruct (f a cache). Qed.

Lemma bind_lift_Throw (e : error) (f : A -> M B) (cache : value) :
  (lift (Throw e) ≫= f) cache = Outcome cache [] (Throw e).
Proof. reflexivity. Qed.

Lemma try_catch_bind_lift_Return (a : A) (f : A -> M B) (handler : error -> M B)
  (cache : value) :
  try_catch (lift (Return a) ≫= f) handler cache = try_catch (f a) handler cache.
Proof. rewrite !try_catch_run, bind_lift_Return. reflexivity. Qed.

Lemma try_catch_bind_lift_Throw (e : error) (f : A -> M B) (handler : error -> M B)
  (cache : value) :
  try_catch (lift (Throw e) ≫= f) handler cache = handler e cache.
Proof.
  rewrite try_catch_run, bind_lift_Throw. cbn [result cache_after printed app].
  now destruct (handler e cache).
Qed.

Lemma try_catch_lift_Return (b : B) (handler : error -> M B) (cache : value) :
  try_catch (lift (Return b)) handler cache = Outcome cache [] (Return b).
Proof. reflexivity. Qed.

Lemma try_catch_lift_Throw (e : error) (handler : error -> M B) (cache : value) :
  try_catch (lift (Throw (A := B) e)) handler cache = handler e cache.
Proof.
  rewrite try_catch_run. cbn [lift result cache_after printed app].
  now destruct (handler e cache).
Qed.

Lemma try_catch_mret (b : B) (handler : error -> M B) (cache : value) :
  try_catch (mret b) handler cache = Outcome cache [] (Return b).
Proof. reflexivity. Qed.

End Steps.

Ltac lift_step :=
  first
    [ rewrite bind_lift_Return
    | rewrite bind_lift_Throw
    | rewrite try_catch_bind_lift_Return
    | rewrite try_catch_bind_lift_Throw
    | rewrite try_catch_lift_Return
    | rewrite try_catch_lift_Throw
    | rewrite try_catch_mret ];
  cbv beta zeta.

Lemma Get_coercible (v : value) (key : string) :
  object_coercible v -> exists w, Get v key = Return w.
Proof.
  intros [Hu Hn]. destruct v; try congruence; cbn [Get];
    try (destruct (String.eqb _ _)); eauto.
Qed.

Lemma param_coercible (v : value) (key : string) (fallback : value) :
  object_coercible v -> exists w, param v key fallback = Return w.
Proof.
  intros H. destruct (Get_coercible v key H) as [w Hw].
  unfold param. rewrite Hw, bind_Return. eauto.
Qed.

Lemma OptionalGet_returns (v : value) (key : string) : exists w, OptionalGet v key = Return w.
Proof.
  destruct v; cbn [OptionalGet Get]; try (destruct (String.eqb _ _)); eauto.
Qed.

Lemma reduce_from_app {A : Type} (callback : A -> value -> completion A) (l1 l2 : list value)
  (acc : A) :
  reduce_from callback acc (l1 ++ l2)%list =
  (acc' ← reduce_from callback acc l1; reduce_from callback acc' l2).
Proof.
  revert acc. induction l1 as [|x l1 IH]; intros acc; cbn [app reduce_from]; [reflexivity|].
  destruct (callback acc x) as [acc'|e]; [|reflexivity]. rewrite !bind_Return. apply IH.
Qed.

Section UpstoxPositions.

Import UpstoxService.
Variable rt : Builtins.

(** [getTodaysPnL] of upstox.service.js returns 0 whenever [data.data] of
    the response is anything but a non-empty array: missing, [null], an
    empty array, an object, a string or a number. *)
Theorem getTodaysPnL_is_zero_without_a_list (token cache body inner : value) :
  OptionalGet body "data" = Return inner ->
  (forall x l, inner <> VArr (x :: l)) ->
  result (getTodaysPnL rt token (responded body) cache) = Return (VNum zero).
Proof.
  intros Hinner Hlist. unfold getTodaysPnL, await_get. run_monad.
  destruct (ToString rt token); [|reflexivity].
  rewrite Hinner. unfold logical_or.
  destruct (ToBoolean inner) eqn:Htruthy; [|reflexivity].
  destruct inner as [| |b|n|s|l|m]; cbn [ToBoolean] in Htruthy; try discriminate.
  - reflexivity.
  - reflexivity.
  - cbn [Get]. cbn [String.eqb Ascii.eqb Bool.eqb].
    destruct (strict_equals_number _ zero); reflexivity.
  - destruct l as [|x l]; [reflexivity | now destruct (Hlist x l)].
  - cbn [Get]. destruct (strict_equals_number _ zero); reflexivity.
Qed.

Lemma add_pnl_null (acc : number) (l : list value) :
  VNull ∈ l -> exists e, reduce_from (add_pnl rt) acc l = Throw e.
Proof.
  revert acc. induction l as [|x l IH]; intros acc H; [now apply elem_of_nil in H|].
  cbn [reduce_from]. destruct (add_pnl rt acc x) as [acc'|e] eqn:Hx; [|eauto].
  rewrite bind_Return. apply IH.
  apply elem_of_cons in H as [<-|H]; [discriminate | exact H].
Qed.

(** One [null] among the positions makes [getTodaysPnL] of
    upstox.service.js return 0: the sum of the other positions is lost in
    the catch. *)
Theorem getTodaysPnL_is_zero_with_a_null_position (token cache body : value)
  (positions : list value) :
  OptionalGet body "data" = Return (VArr positions) ->
  VNull ∈ positions ->
  result (getTodaysPnL rt token (responded body) cache) = Return (VNum zero).
Proof.
  intros Hinner Hnull. unfold getTodaysPnL, await_get. run_monad.
  destruct (ToString rt token); [|reflexivity].
  rewrite Hinner. cbn [logical_or ToBoolean Get String.eqb Ascii.eqb Bool.eqb].
  destruct (strict_equals_number _ zero); [reflexivity|].
  cbn [call_reduce]. destruct (add_pnl_null zero positions Hnull) as [e ->]. reflexivity.
Qed.

End UpstoxPositions.

Section Orders.

Variable rt : Builtins.

(** [placeIntradayOrder] of upstox.service.js, called with an argument whose
    token can be printed, sends one POST request, whose body holds the
    caller's quantity and transaction type, or 1 and BUY where the caller
    left them [undefined]. When the request is answered it returns the
    response data and prints nothing; when it fails it prints one line on
    [stderr] and throws the very error of the request. *)
Theorem upstox_order_returns_the_response_or_rethrows (args token : value) (shown : string) :
  Get args "token" = Return token ->
  ToString rt token = Return shown ->
  exists sent quantity transaction_type,
    method sent = "POST" /\
    param args "quantity" (VNum one) = Return quantity /\
    param args "transaction_type" (VStr "BUY") = Return transaction_type /\
    field "quantity" (body sent) = quantity /\
    field "transaction_type" (body sent) = transaction_type /\
    forall (http : axios) (cache : value),
      UpstoxOrder.placeIntradayOrder rt http args cache =
      match http sent with
      | UpstoxService.responded data => Outcome cache [] (Return data)
      | UpstoxService.failed err =>
          Outcome cache
            [Line stderr "Error placing Upstox order:" [UpstoxService.error_detail err]]
            (Throw err)
      end.
Proof.
  intros Htoken Hshown.
  assert (Hc : object_coercible args) by (split; intros ->; discriminate).
  destruct (Get_coercible args "instrument_key" Hc) as [key Hkey].
  destruct (param_coercible args "transaction_type" (VStr "BUY") Hc) as [tt' Htt].
  destruct (param_coercible args "quantity" (VNum one) Hc) as [q Hq].
  assert (Hsent : exists sent,
    (forall (http : axios) (cache : value),
       UpstoxOrder.placeIntradayOrder rt http args cache =
       match http sent with
       | UpstoxService.responded data => Outcome cache [] (Return data)
       | UpstoxService.failed err =>
           Outcome cache
             [Line stderr "Error placing Upstox order:" [UpstoxService.error_detail err]]
             (Throw err)
       end) /\
    method sent = "POST" /\
    field "quantity" (body sent) = q /\
    field "transaction_type" (body sent) = tt').
  { eexists. split.
    - intros http cache. unfold UpstoxOrder.placeIntradayOrder.
      rewrite Htoken, Hkey, Htt, Hq. do 4 lift_step.
      unfold UpstoxOrder.bearer. rewrite Hshown, bind_Return. lift_step.
      match goal with
      | |- context [UpstoxService.await_get (http ?r)] =>
          match goal with |- _ = match http ?e with _ => _ end => unify e r end;
          destruct (http r); cbn [UpstoxService.await_get]; lift_step;
          [lift_step|]; reflexivity
      end.
    - split; [reflexivity|]. split; reflexivity. }
  destruct Hsent as (sent & Hrun & Hmethod & Hquantity & Htype).
  exists sent, q, tt'. auto 10.
Qed.

End Orders.

Lemma Get_data_field (v : value) (key : string) :
  object_coercible v -> String.eqb key "length" = false ->
  Get v key = Return (field key v).
Proof.
  intros [Hu Hn] Hkey. destruct v; try congruence; cbn [Get field]; rewrite ?Hkey; reflexivity.
Qed.

Lemma OptionalGet_field (v : value) (key : string) :
  String.eqb key "length" = false -> OptionalGet v key = Return (field key v).
Proof.
  intros Hkey. destruct v; cbn [OptionalGet Get field]; rewrite ?Hkey; reflexivity.
Qed.

Section AngelOneBalance.

Import UpstoxService AngelOne.
Variable rt : Builtins.

(** [getIntradayBalance], called with an argument that is an object, never
    throws. When the request fails it returns the object of three "0"
    strings; when the request is answered it returns
    [data.data.availableintradaypayin] of the response, which is
    [undefined], not that object, as soon as a part of the path is
    missing. *)
Theorem getIntradayBalance_never_throws (args : value) :
  object_coercible args ->
  (forall (http : axios) (cache : value),
     exists v, result (getIntradayBalance rt http args cache) = Return v) /\
  (forall (err : error) (cache : value),
     result (getIntradayBalance rt (answering (failed err)) args cache) = Return no_balance) /\
  (forall (body token : value) (shown : string) (cache : value),
     Get args "token" = Return token -> ToString rt token = Return shown ->
     getIntradayBalance rt (answering (responded body)) args cache =
     Outcome cache [] (Return (field "availableintradaypayin" (field "data" body)))).
Proof.
  intros Hc.
  destruct (Get_coercible args "apiKey" Hc) as [apiKey HapiKey].
  destruct (Get_coercible args "token" Hc) as [token Htoken].
  destruct (param_coercible args "clientLocalIP" (VStr "127.0.0.1") Hc) as [ip1 Hip1].
  destruct (param_coercible args "clientPublicIP" (VStr "127.0.0.1") Hc) as [ip2 Hip2].
  destruct (param_coercible args "macAddress" (VStr "AA:BB:CC:DD:EE:FF") Hc) as [mac Hmac].
  split; [|split].
  - intros http cache. unfold getIntradayBalance.
    rewrite HapiKey, Htoken, Hip1, Hip2, Hmac. do 5 lift_step. unfold bearer.
    destruct (ToString rt token) as [shown|e]; [rewrite bind_Return|rewrite bind_Throw];
      lift_step; [|eexists; reflexivity].
    destruct (await_get _) as [body|e]; lift_step; [|eexists; reflexivity].
    rewrite (OptionalGet_field body "data") by reflexivity. lift_step.
    rewrite (OptionalGet_field _ "availableintradaypayin") by reflexivity. lift_step.
    eexists; reflexivity.
  - intros err cache. unfold getIntradayBalance.
    rewrite HapiKey, Htoken, Hip1, Hip2, Hmac. do 5 lift_step. unfold bearer.
    destruct (ToString rt token) as [shown|e]; [rewrite bind_Return|rewrite bind_Throw];
      lift_step; [|reflexivity].
    cbn [answering await_get]. lift_step. reflexivity.
  - intros body token' shown cache Htoken' Hshown.
    assert (token' = token) as -> by congruence.
    unfold getIntradayBalance.
    rewrite HapiKey, Htoken, Hip1, Hip2, Hmac. do 5 lift_step. unfold bearer.
    rewrite Hshown, bind_Return. lift_step. cbn [answering await_get]. lift_step.
    rewrite (OptionalGet_field body "data") by reflexivity. lift_step.
    rewrite (OptionalGet_field _ "availableintradaypayin") by reflexivity. lift_step.
    reflexivity.
Qed.

End AngelOneBalance.

Section AngelOnePositions.

Import UpstoxService AngelOne.
Variable rt : Builtins.

(** [getTodaysPnL] of angelone.service.js, called with an argument that is
    an object, never throws and returns a number; it returns 0 when the
    request fails and when [data.data] of the response is falsy. *)
Theorem angel_getTodaysPnL_never_throws (args : value) :
  object_coercible args ->
  (forall (http : axios) (cache : value),
     exists n, result (getTodaysPnL rt http args cache) = Return (VNum n)) /\
  (forall (err : error) (cache : value),
     result (getTodaysPnL rt (answering (failed err)) args cache) = Return (VNum zero)) /\
  (forall (body cache : value),
     ToBoolean (field "data" body) = false ->
     result (getTodaysPnL rt (answering (responded body)) args cache) = Return (VNum zero)).
Proof.
  intros Hc.
  destruct (Get_coercible args "apiKey" Hc) as [apiKey HapiKey].
  destruct (Get_coercible args "token" Hc) as [token Htoken].
  destruct (param_coercible args "clientLocalIP" (VStr "127.0.0.1") Hc) as [ip1 Hip1].
  destruct (param_coercible args "clientPublicIP" (VStr "127.0.0.1") Hc) as [ip2 Hip2].
  destruct (param_coercible args "macAddress" (VStr "AA:BB:CC:DD:EE:FF") Hc) as [mac Hmac].
  split; [|split].
  - intros http cache. unfold getTodaysPnL.
    rewrite HapiKey, Htoken, Hip1, Hip2, Hmac. do 5 lift_step. unfold bearer.
    destruct (ToString rt token) as [shown|e]; [rewrite bind_Return|rewrite bind_Throw];
      lift_step; [|eexists; reflexivity].
    destruct (await_get _) as [body|e]; lift_step; [|eexists; reflexivity].
    destruct (Get body "data") as [inner|e]; lift_step; [|eexists; reflexivity].
    destruct (Get (logical_or inner (VArr [])) "length") as [len|e]; lift_step;
      [|eexists; reflexivity].
    destruct (negb (ToBoolean len)); [lift_step; eexists; reflexivity|].
    destruct (iterate _) as [items|e]; lift_step; [|eexists; reflexivity].
    destruct (reduce_from _ _ _) as [total|e]; lift_step; [lift_step|];
      eexists; reflexivity.
  - intros err cache. unfold getTodaysPnL.
    rewrite HapiKey, Htoken, Hip1, Hip2, Hmac. do 5 lift_step. unfold bearer.
    destruct (ToString rt token) as [shown|e]; [rewrite bind_Return|rewrite bind_Throw];
      lift_step; [|reflexivity].
    cbn [answering await_get]. lift_step. reflexivity.
  - intros body cache Hfalsy. unfold getTodaysPnL.
    rewrite HapiKey, Htoken, Hip1, Hip2, Hmac. do 5 lift_step. unfold bearer.
    destruct (ToString rt token) as [shown|e]; [rewrite bind_Return|rewrite bind_Throw];
      lift_step; [|reflexivity].
    cbn [answering await_get]. lift_step.
    destruct (Get body "data") as [inner|e] eqn:Hinner; lift_step; [|reflexivity].
    assert (Hin : ToBoolean inner = false).
    { destruct body; cbn [Get field String.eqb Ascii.eqb Bool.eqb] in *; try discriminate;
        injection Hinner as <-; try reflexivity; exact Hfalsy. }
    unfold logical_or. rewrite Hin. cbn [Get String.eqb Ascii.eqb Bool.eqb length].
    lift_step. reflexivity.
Qed.

Lemma add_position_without_pnl (total : number) (pos : value) :
  without_pnl pos -> add_position rt total pos = Return total.
Proof.
  intros (Hc & Hm & Hn). unfold add_position.
  rewrite (Get_data_field pos "mtom" Hc), bind_Return, Hm by reflexivity.
  rewrite (Get_data_field pos "netvalue" Hc), bind_Return, Hn by reflexivity.
  reflexivity.
Qed.

(** The loop of [getTodaysPnL] of angelone.service.js adds nothing for a
    position whose [mtom] and [netvalue] are both falsy (missing, 0, the
    empty string): the total over the positions is the total over the
    positions without it. *)
Theorem positions_without_pnl_are_skipped (total : number) (before after : list value)
  (pos : value) :
  without_pnl pos ->
  reduce_from (add_position rt) total (before ++ pos :: after) =
  reduce_from (add_position rt) total (before ++ after).
Proof.
  intros H. rewrite !reduce_from_app.
  destruct (reduce_from (add_position rt) total before) as [acc|e]; [|reflexivity].
  rewrite !bind_Return. cbn [reduce_from].
  now rewrite add_position_without_pnl, bind_Return.
Qed.

(** A position with a truthy [mtom] counts with its [mtom] alone: its
    [netvalue] is not read. *)
Theorem mtom_takes_precedence_over_netvalue (total : number)
  (properties : gmap string value) (netvalue : value) :
  ToBoolean (field "mtom" (VObj properties)) = true ->
  add_position rt total (VObj (<["netvalue" := netvalue]> properties)) =
  add_position rt total (VObj properties).
Proof.
  cbn [field]. intros H. unfold add_position. rewrite !Get_object, !bind_Return. cbn [field].
  rewrite lookup_insert_ne by discriminate. now rewrite H.
Qed.

End AngelOnePositions.

Section AngelOneOrders.

Import UpstoxService AngelOne.
Variable rt : Builtins.
Variable object_toString : value -> completion value.

(** [placeIntradayOrder] of angelone.service.js calls [toString] on the
    price and on the quantity before its [try]: with a [null] price, or
    with the price left out and a [null] quantity, it throws a [TypeError]
    without printing a line, and its outcome does not depend on axios, so
    no request is made. *)
Theorem angel_order_with_null_price_or_quantity (args : value) :
  object_coercible args ->
  field "price" args = VNull \/
  (field "price" args = VUndefined /\ field "quantity" args = VNull) ->
  forall (http : axios) (cache : value),
    placeIntradayOrder rt http object_toString args cache =
    Outcome cache [] (Throw (TypeError "Cannot read properties of null (reading 'toString')")).
Proof.
  intros Hc Hnull http cache.
  destruct (Get_coercible args "apiKey" Hc) as [apiKey HapiKey].
  destruct (Get_coercible args "token" Hc) as [token Htoken].
  destruct (param_coercible args "exchange" (VStr "NSE") Hc) as [exchange Hexchange].
  destruct (Get_coercible args "tradingsymbol" Hc) as [symbol Hsymbol].
  destruct (Get_coercible args "symboltoken" Hc) as [stoken Hstoken].
  destruct (param_coercible args "transaction_type" (VStr "BUY") Hc) as [tt' Htt].
  destruct (param_coercible args "clientLocalIP" (VStr "127.0.0.1") Hc) as [ip1 Hip1].
  destruct (param_coercible args "clientPublicIP" (VStr "127.0.0.1") Hc) as [ip2 Hip2].
  destruct (param_coercible args "macAddress" (VStr "AA:BB:CC:DD:EE:FF") Hc) as [mac Hmac].
  assert (Hq : param args "quantity" (VNum one) =
               Return (match field "quantity" args with
                       | VUndefined => VNum one | _ => field "quantity" args end)).
  { unfold param. rewrite (Get_data_field args "quantity" Hc eq_refl). reflexivity. }
  assert (Hp : param args "price" (VNum zero) =
               Return (match field "price" args with
                       | VUndefined => VNum zero | _ => field "price" args end)).
  { unfold param. rewrite (Get_data_field args "price" Hc eq_refl). reflexivity. }
  unfold placeIntradayOrder.
  rewrite HapiKey, Htoken, Hexchange, Hsymbol, Hstoken, Htt, Hq, Hp, Hip1, Hip2, Hmac.
  do 11 lift_step.
  destruct Hnull as [->|[-> ->]]; cbn [call_toString]; lift_step; [reflexivity|].
  lift_step. reflexivity.
Qed.

(** Without [adminKeys] (left out or [null]) [getCandles] and
    [getMarketData] throw a [TypeError] while they build the headers:
    nothing is printed, also by [getMarketData], whose [try] starts after
    the headers, and no request is made. *)
Theorem candles_and_market_data_need_adminKeys (args : value) :
  object_coercible args -> absent (field "adminKeys" args) ->
  forall (http : axios) (cache : value),
    exists text,
      getCandles rt http args cache = Outcome cache [] (Throw (TypeError text)) /\
      getMarketData rt http args cache = Outcome cache [] (Throw (TypeError text)).
Proof.
  intros Hc Habsent http cache.
  destruct (Get_coercible args "exchange" Hc) as [exchange Hexchange].
  destruct (Get_coercible args "symboltoken" Hc) as [stoken Hstoken].
  destruct (Get_coercible args "interval" Hc) as [interval Hinterval].
  destruct (Get_coercible args "fromdate" Hc) as [fromdate Hfromdate].
  destruct (Get_coercible args "todate" Hc) as [todate Htodate].
  destruct (Get_coercible args "mode" Hc) as [mode Hmode].
  destruct (Get_coercible args "exchangeTokens" Hc) as [tokens Htokens].
  pose proof (Get_data_field args "adminKeys" Hc eq_refl) as Hkeys.
  unfold getCandles, getMarketData.
  rewrite Hexchange, Hstoken, Hinterval, Hfromdate, Htodate, Hmode, Htokens, Hkeys.
  do 9 lift_step. unfold admin_headers.
  destruct Habsent as [->| ->]; cbn [Get]; rewrite bind_Throw; eexists;
    (split; lift_step; reflexivity).
Qed.

(** With headers that can be built, [getCandles] and [getMarketData] each
    send one request with these headers and return the response data,
    printing nothing. When the request fails both throw the error of the
    request; [getMarketData] prints it on [stderr] first, [getCandles]
    prints nothing. *)
Theorem candles_and_market_data_pass_the_error_on (args : value)
  (admin : gmap string value) :
  object_coercible args ->
  admin_headers rt (field "adminKeys" args) = Return admin ->
  exists candles_request market_request,
    headers candles_request = admin /\ headers market_request = admin /\
    forall (http : axios) (cache : value),
      getCandles rt http args cache =
        match http candles_request with
        | responded data => Outcome cache [] (Return data)
        | failed err => Outcome cache [] (Throw err)
        end /\
      getMarketData rt http args cache =
        match http market_request with
        | responded data => Outcome cache [] (Return data)
        | failed err =>
            Outcome cache [Line stderr "Error fetching market data:" [error_detail err]]
              (Throw err)
        end.
Proof.
  intros Hc Hadmin.
  destruct (Get_coercible args "exchange" Hc) as [exchange Hexchange].
  destruct (Get_coercible args "symboltoken" Hc) as [stoken Hstoken].
  destruct (Get_coercible args "interval" Hc) as [interval Hinterval].
  destruct (Get_coercible args "fromdate" Hc) as [fromdate Hfromdate].
  destruct (Get_coercible args "todate" Hc) as [todate Htodate].
  destruct (Get_coercible args "mode" Hc) as [mode Hmode].
  destruct (Get_coercible args "exchangeTokens" Hc) as [tokens Htokens].
  pose proof (Get_data_field args "adminKeys" Hc eq_refl) as Hkeys.
  eexists (Request "POST" _ _ admin), (Request "POST" _ _ admin).
  split; [reflexivity|]. split; [reflexivity|].
  intros http cache. split.
  - unfold getCandles.
    rewrite Hexchange, Hstoken, Hinterval, Hfromdate, Htodate, Hkeys. do 6 lift_step.
    rewrite Hadmin. lift_step.
    match goal with
    | |- context [await_get (http ?r)] =>
        match goal with |- _ = match http ?e with _ => _ end => unify e r end;
        destruct (http r); cbn [await_get]; lift_step; reflexivity
    end.
  - unfold getMarketData.
    rewrite Hmode, Htokens, Hkeys. do 3 lift_step.
    rewrite Hadmin. lift_step.
    match goal with
    | |- context [await_get (http ?r)] =>
        match goal with |- _ = match http ?e with _ => _ end => unify e r end;
        destruct (http r); cbn [await_get]; lift_step; [lift_step|]; reflexivity
    end.
Qed.

End AngelOneOrders.

(** ** These theorems at concrete inputs *)

Section MoreEvaluation.

Import UpstoxInstrument Scheduler.

Lemma lookup_returns_null_or_a_match_witness :
  VObj (record "NIFTY" 23300 "PE" "2025-01-02") = VNull \/
  exists catalog,
    VArr two_records = VArr catalog /\
    VObj (record "NIFTY" 23300 "PE" "2025-01-02") ∈ catalog /\
    is_match sample_runtime "nifty" (number_of_Z 23300) "pe" (VObj (record "NIFTY" 23300 "PE" "2025-01-02")).
Proof.
  apply (lookup_returns_null_or_a_match sample_runtime "nifty" (number_of_Z 23300) "pe"
           (VArr two_records)).
  vm_compute. reflexivity.
Defined.

Lemma lookup_returns_null_iff_nothing_matches_witness :
  result (getUpstoxOption sample_runtime "NIFTY" (number_of_Z 24000) "CE" (VArr two_records)) =
    Return VNull <->
  (forall r, r ∈ two_records -> ~ is_match sample_runtime "NIFTY" (number_of_Z 24000) "CE" r).
Proof.
  apply (lookup_returns_null_iff_nothing_matches sample_runtime "NIFTY" (number_of_Z 24000) "CE"
           two_records []).
  vm_compute. reflexivity.
Defined.

Lemma numeric_symbol_is_unreadable : unreadable numeric_symbol_record.
Proof.
  right. right. split.
  - intros [H|H]; vm_compute in H; discriminate.
  - intros [s H]. vm_compute in H. discriminate.
Defined.

Lemma unreadable_entry_makes_every_lookup_throw_witness :
  exists text,
    result (getUpstoxOption sample_runtime "NIFTY" (number_of_Z 23300) "PE"
              (VArr (two_records ++ [numeric_symbol_record]))) = Throw (TypeError text).
Proof.
  apply (unreadable_entry_makes_every_lookup_throw sample_runtime "NIFTY" (number_of_Z 23300)
           "PE" (two_records ++ [numeric_symbol_record]) numeric_symbol_record).
  - apply elem_of_app. right. apply list_elem_of_here.
  - exact numeric_symbol_is_unreadable.
Defined.

Lemma lookup_ignores_the_case_of_the_query_witness :
  getUpstoxOption sample_runtime "nifty" (number_of_Z 23300) "pe" (VArr two_records) =
  getUpstoxOption sample_runtime "NIFTY" (number_of_Z 23300) "PE" (VArr two_records).
Proof.
  apply (lookup_ignores_the_case_of_the_query sample_runtime "nifty" "NIFTY"
           (number_of_Z 23300) "pe" "PE" (VArr two_records));
    apply (same_upper_case_ascii_text sample_runtime); reflexivity.
Defined.

Lemma lookup_is_not_affected_by_other_records_witness :
  matches sample_runtime "NIFTY" (number_of_Z 23300) "PE" other_symbol_record = Return false /\
  result (getUpstoxOption sample_runtime "NIFTY" (number_of_Z 23300) "PE"
            (VArr ([] ++ other_symbol_record :: two_records))) =
  result (getUpstoxOption sample_runtime "NIFTY" (number_of_Z 23300) "PE"
            (VArr ([] ++ two_records))).
Proof.
  assert (H : matches sample_runtime "NIFTY" (number_of_Z 23300) "PE" other_symbol_record = Return false)
    by (vm_compute; reflexivity).
  split; [exact H|].
  exact (lookup_is_not_affected_by_other_records sample_runtime "NIFTY" (number_of_Z 23300) "PE"
           [] two_records other_symbol_record H).
Defined.

Lemma parsed_array_replaces_the_cache_witness :
  downloadAndPopulateCache sample_runtime (gunzip_end two_records_chunks) (VArr []) =
  Outcome (VArr two_records)
    [Line stdout "Starting instruments download for in-memory cache..." [];
     Line stdout
       ("In-memory cache populated with " ++
        NumberToString sample_runtime (number_of_Z (Z.of_nat (length two_records))) ++
        " instruments.") []]
    (Return tt).
Proof.
  apply (parsed_array_replaces_the_cache sample_runtime (VArr []) two_records_chunks
           two_records).
  vm_compute. reflexivity.
Defined.

Lemma main_skips_the_download_when_populated_witness :
  main sample_runtime (gunzip_end ["[]"]) (VArr two_records) =
    main sample_runtime (gunzip_error (ZlibError "incorrect header check")) (VArr two_records) /\
  cache_after (main sample_runtime (gunzip_end ["[]"]) (VArr two_records)) = VArr two_records.
Proof.
  apply (main_skips_the_download_when_populated sample_runtime (VArr two_records)
           (gunzip_end ["[]"]) (gunzip_error (ZlibError "incorrect header check"))).
  reflexivity.
Defined.

Lemma falsy_payload_leaves_the_cache_unpopulated_witness :
  result (downloadAndPopulateCache zero_runtime (gunzip_end ["0"]) (VArr two_records)) =
    Return tt /\
  cache_after (downloadAndPopulateCache zero_runtime (gunzip_end ["0"]) (VArr two_records)) =
    VNum zero /\
  getUpstoxOption zero_runtime "NIFTY" (number_of_Z 23300) "PE" (VNum zero) =
    Outcome (VNum zero)
      [Line stderr "Instrument cache is not populated. Please run the download first." []]
      (Return VNull).
Proof.
  apply (falsy_payload_leaves_the_cache_unpopulated zero_runtime (VArr two_records) (VNum zero)
           ["0"] "NIFTY" (number_of_Z 23300) "PE");
    [vm_compute; reflexivity | reflexivity | discriminate | discriminate].
Defined.

Lemma two_failed_cycles_fail : Forall (tick_or_failure sample_runtime) two_failed_cycles.
Proof.
  unfold two_failed_cycles.
  apply List.Forall_cons; [exact I|]. apply List.Forall_cons; [exact I|].
  apply List.Forall_cons; [right; left; exact I|].
  apply List.Forall_cons; [left; exact I|]. apply List.Forall_nil.
Defined.

Lemma ticks_and_failures_keep_the_cache_witness :
  instrumentCache (steps sample_runtime (idle (VArr two_records)) two_failed_cycles) =
  instrumentCache (idle (VArr two_records)).
Proof.
  exact (ticks_and_failures_keep_the_cache sample_runtime two_failed_cycles
           (idle (VArr two_records)) two_failed_cycles_fail).
Defined.

End MoreEvaluation.

Section ServiceEvaluation.

Import UpstoxService.

Lemma getTodaysPnL_is_zero_without_a_list_witness :
  result (getTodaysPnL sample_runtime (VStr "jwt")
            (responded (positions_body (VStr "no positions"))) VNull) = Return (VNum zero).
Proof.
  apply (getTodaysPnL_is_zero_without_a_list sample_runtime (VStr "jwt") VNull
           (positions_body (VStr "no positions")) (VStr "no positions"));
    [vm_compute; reflexivity | discriminate].
Defined.

Lemma getTodaysPnL_is_zero_with_a_null_position_witness :
  result (getTodaysPnL sample_runtime (VStr "jwt")
            (responded (positions_body (VArr positions_with_a_null))) VNull) =
  Return (VNum zero).
Proof.
  apply (getTodaysPnL_is_zero_with_a_null_position sample_runtime (VStr "jwt") VNull
           (positions_body (VArr positions_with_a_null)) positions_with_a_null);
    [vm_compute; reflexivity |].
  apply list_elem_of_further, list_elem_of_here.
Defined.

Lemma upstox_order_returns_the_response_or_rethrows_witness :
  exists sent quantity transaction_type,
    method sent = "POST" /\
    param upstox_order_args "quantity" (VNum one) = Return quantity /\
    param upstox_order_args "transaction_type" (VStr "BUY") = Return transaction_type /\
    field "quantity" (body sent) = quantity /\
    field "transaction_type" (body sent) = transaction_type /\
    forall (http : axios) (cache : value),
      UpstoxOrder.placeIntradayOrder sample_runtime http upstox_order_args cache =
      match http sent with
      | responded data => Outcome cache [] (Return data)
      | failed err =>
          Outcome cache [Line stderr "Error placing Upstox order:" [error_detail err]]
            (Throw err)
      end.
Proof.
  apply (upstox_order_returns_the_response_or_rethrows sample_runtime upstox_order_args
           (VStr "jwt") "jwt"); vm_compute; reflexivity.
Defined.

Lemma credentials_are_an_object : object_coercible credentials.
Proof. split; discriminate. Defined.

Lemma getIntradayBalance_never_throws_witness :
  (forall (http : axios) (cache : value),
     exists v, result (AngelOne.getIntradayBalance sample_runtime http credentials cache) =
               Return v) /\
  (forall (err : error) (cache : value),
     result (AngelOne.getIntradayBalance sample_runtime (answering (failed err)) credentials
               cache) = Return AngelOne.no_balance) /\
  (forall (body token : value) (shown : string) (cache : value),
     Get credentials "token" = Return token -> ToString sample_runtime token = Return shown ->
     AngelOne.getIntradayBalance sample_runtime (answering (responded body)) credentials cache =
     Outcome cache [] (Return (field "availableintradaypayin" (field "data" body)))).
Proof.
  exact (getIntradayBalance_never_throws sample_runtime credentials credentials_are_an_object).
Defined.

Lemma angel_getTodaysPnL_never_throws_witness :
  (forall (http : axios) (cache : value),
     exists n, result (AngelOne.getTodaysPnL sample_runtime http credentials cache) =
               Return (VNum n)) /\
  (forall (err : error) (cache : value),
     result (AngelOne.getTodaysPnL sample_runtime (answering (failed err)) credentials cache) =
     Return (VNum zero)) /\
  (forall (body cache : value),
     ToBoolean (field "data" body) = false ->
     result (AngelOne.getTodaysPnL sample_runtime (answering (responded body)) credentials
               cache) = Return (VNum zero)).
Proof.
  exact (angel_getTodaysPnL_never_throws sample_runtime credentials credentials_are_an_object).
Defined.

Lemma empty_position_is_without_pnl : without_pnl (VObj (<["symbol" := VStr "SBIN-EQ"]> ∅)).
Proof. split; [split; discriminate|]. split; reflexivity. Defined.

Lemma positions_without_pnl_are_skipped_witness :
  reduce_from (AngelOne.add_position sample_runtime) zero
    ([VObj (<["mtom" := VStr "5"]> ∅)] ++ VObj (<["symbol" := VStr "SBIN-EQ"]> ∅) :: []) =
  reduce_from (AngelOne.add_position sample_runtime) zero
    ([VObj (<["mtom" := VStr "5"]> ∅)] ++ []).
Proof.
  exact (positions_without_pnl_are_skipped sample_runtime zero
           [VObj (<["mtom" := VStr "5"]> ∅)] [] (VObj (<["symbol" := VStr "SBIN-EQ"]> ∅))
           empty_position_is_without_pnl).
Defined.

Lemma mtom_takes_precedence_over_netvalue_witness :
  AngelOne.add_position sample_runtime zero
    (VObj (<["netvalue" := VStr "7"]> (<["mtom" := VStr "5"]> ∅))) =
  AngelOne.add_position sample_runtime zero (VObj (<["mtom" := VStr "5"]> ∅)).
Proof.
  apply (mtom_takes_precedence_over_netvalue sample_runtime zero (<["mtom" := VStr "5"]> ∅)
           (VStr "7")).
  reflexivity.
Defined.

Lemma angel_order_with_null_price_or_quantity_witness :
  AngelOne.placeIntradayOrder sample_runtime (answering (responded VNull)) plain_toString
    order_args_with_null_price VNull =
  Outcome VNull [] (Throw (TypeError "Cannot read properties of null (reading 'toString')")).
Proof.
  apply (angel_order_with_null_price_or_quantity sample_runtime plain_toString
           order_args_with_null_price).
  - split; discriminate.
  - left. vm_compute. reflexivity.
Defined.

Lemma candles_and_market_data_need_adminKeys_witness :
  exists text,
    AngelOne.getCandles sample_runtime (answering (responded VNull)) (candle_args VUndefined)
      VNull = Outcome VNull [] (Throw (TypeError text)) /\
    AngelOne.getMarketData sample_runtime (answering (responded VNull))
      (candle_args VUndefined) VNull = Outcome VNull [] (Throw (TypeError text)).
Proof.
  apply (candles_and_market_data_need_adminKeys sample_runtime (candle_args VUndefined)).
  - split; discriminate.
  - left. vm_compute. reflexivity.
Defined.

Lemma candles_and_market_data_pass_the_error_on_witness :
  exists candles_request market_request,
    headers candles_request = credentials_headers /\
    headers market_request = credentials_headers /\
    forall (http : axios) (cache : value),
      AngelOne.getCandles sample_runtime http (candle_args credentials) cache =
        match http candles_request with
        | responded data => Outcome cache [] (Return data)
        | failed err => Outcome cache [] (Throw err)
        end /\
      AngelOne.getMarketData sample_runtime http (candle_args credentials) cache =
        match http market_request with
        | responded data => Outcome cache [] (Return data)
        | failed err =>
            Outcome cache [Line stderr "Error fetching market data:" [error_detail err]]
              (Throw err)
        end.
Proof.
  apply (candles_and_market_data_pass_the_error_on sample_runtime (candle_args credentials)
           credentials_headers).
  - split; discriminate.
  - reflexivity.
Defined.

End ServiceEvaluation.
